(** * The Innovus place-and-route plugin of hammer-vlsi

    A shallow embedding of [src/hammer-vlsi/par/innovus/__init__.py]:
    the class [Innovus] with its methods [do_run], [create_floorplan_tcl],
    [generate_mmmc_script] and [generate_floorplan_tcl].

    The plugin reads its configuration, builds TCL command lists, writes
    files, launches subprocesses and toggles two process-wide logging
    flags.  Each method is a computation in a small monad that threads the
    logging flags, collects the effects on the outside world as an ordered
    list of events, and either returns a value or raises. *)

From Stdlib Require Import Ascii String List Bool Arith Lia.
From stdpp Require Import base gmap strings list.
Import ListNotations.

Local Open Scope list_scope.

(** ** Python strings *)

Module PyStr.

(** The line feed, Python's ["\n"]. *)
Definition lf : ascii := Ascii.ascii_of_nat 10.
Definition nl : string := String lf EmptyString.

(** [sep.join(l)]. *)
Definition join (sep : string) (l : list string) : string :=
  String.concat sep l.

(** [s.split(sep)] for a separator of one character, the only form the
    plugin uses.  As in Python the result is never empty: a string
    without separator is returned whole, and a separator at either end
    gives an empty field. *)
Fixpoint split (sep : ascii) (s : string) : list string :=
  match s with
  | EmptyString => [EmptyString]
  | String c s' =>
      if Ascii.eqb c sep then EmptyString :: split sep s'
      else match split sep s' with
           | [] => [String c EmptyString]
           | w :: ws => String c w :: ws
           end
  end.

(** [s.endswith(suffix)]. *)
Definition endswith (s suffix : string) : bool :=
  let n := String.length s in
  let k := String.length suffix in
  (k <=? n) && String.eqb (String.substring (n - k) k s) suffix.

(** [s.startswith(prefix)]. *)
Definition startswith (s prefix : string) : bool := String.prefix prefix s.

(** Whether character [c] occurs in [s]. *)
Fixpoint mem (c : ascii) (s : string) : bool :=
  match s with
  | EmptyString => false
  | String d s' => Ascii.eqb d c || mem c s'
  end.

(** Whether [needle] occurs in [s] ([needle in s]). *)
Fixpoint contains (needle s : string) : bool :=
  String.prefix needle s
  || match s with
     | EmptyString => false
     | String _ s' => contains needle s'
     end.

(** The first word of a command: everything before the first blank. *)
Fixpoint first_word (s : string) : string :=
  match s with
  | EmptyString => EmptyString
  | String c s' =>
      if Ascii.eqb c " "%char then EmptyString else String c (first_word s')
  end.

End PyStr.

(** [os.path.join(a, b)] of [posixpath]: an absolute [b] replaces [a];
    otherwise [b] is appended, after a slash unless [a] is empty or already
    ends in one. *)
Definition path_join (a b : string) : string :=
  if PyStr.startswith b "/" then b
  else if String.eqb a EmptyString || PyStr.endswith a "/" then a +:+ b
  else a +:+ "/" +:+ b.

(** ** The outside world *)

(** Levels of the framework's logger. *)
Inductive Level := LInfo | LError.

(** What a run does to its surroundings, in the order it does it.
    [EvOpen] is [open(path, "w")], which creates or truncates the file;
    [EvWrite] is the content reaching the file when the [with] block ends. *)
Inductive Event :=
| EvEnterScript
| EvLog (lvl : Level) (msg : string)
| EvOpen (path : string)
| EvWrite (path content : string)
| EvMkdir (path : string)
| EvExec (args : list string) (cwd : option string).

(** The process-wide flags [HammerVLSILogging.enable_colour] and
    [HammerVLSILogging.enable_tag]. *)
Record Logging := { enable_colour : bool; enable_tag : bool }.

(** An exception that escapes to the caller. *)
Inductive Exn := OSError (args : list string).

Inductive Outcome (A : Type) :=
| Returned (a : A)
| Raised (e : Exn).
Arguments Returned {A} a.
Arguments Raised {A} e.

(** The result of running a method: how it ended, what it did, and the
    logging flags it left behind. *)
Record Run (A : Type) := MkRun {
  outcome : Outcome A;
  events : list Event;
  logging : Logging
}.
Arguments MkRun {A} _ _ _.
Arguments outcome {A} _.
Arguments events {A} _.
Arguments logging {A} _.

Definition M (A : Type) : Type := Logging -> Run A.

Definition ret {A} (a : A) : M A := fun lg => MkRun (Returned a) [] lg.

Definition bind {A B} (m : M A) (k : A -> M B) : M B :=
  fun lg =>
    let r := m lg in
    match outcome r with
    | Returned a =>
        let r' := k a (logging r) in
        MkRun (outcome r') (events r ++ events r') (logging r')
    | Raised e => MkRun (Raised e) (events r) (logging r)
    end.

Definition raise {A} (e : Exn) : M A := fun lg => MkRun (Raised e) [] lg.

Definition emit (e : Event) : M unit := fun lg => MkRun (Returned tt) [e] lg.

Definition set_enable_colour (b : bool) : M unit :=
  fun lg => MkRun (Returned tt) [] {| enable_colour := b; enable_tag := enable_tag lg |}.

Definition set_enable_tag (b : bool) : M unit :=
  fun lg => MkRun (Returned tt) [] {| enable_colour := enable_colour lg; enable_tag := b |}.

Declare Scope py_scope.
Delimit Scope py_scope with py.
Notation "x <- m ;; k" := (bind m (fun x => k))
  (at level 100, m at next level, right associativity) : py_scope.
Notation "m ;;; k" := (bind m (fun _ => k))
  (at level 100, right associativity) : py_scope.
Local Open Scope py_scope.

(** [with open(path, "w") as f: f.write(content)]: the file is opened
    before [content] is evaluated. *)
Definition write_file (path : string) (content : M string) : M unit :=
  emit (EvOpen path) ;;;
  text <- content ;;
  emit (EvWrite path text).

(** [os.makedirs(path, exist_ok=True)]. *)
Definition makedirs (path : string) : M unit := emit (EvMkdir path).

(** The files on disk after a list of events, starting from [d]: opening
    for writing empties the file, a write replaces its content, and [touch]
    creates an empty file where there was none. *)
Definition disk_step (d : gmap string string) (e : Event) : gmap string string :=
  match e with
  | EvOpen p => <[p := EmptyString]> d
  | EvWrite p c => <[p := c]> d
  | EvExec [prog; p] _ =>
      if String.eqb prog "touch" then
        match d !! p with
        | Some _ => d
        | None => <[p := EmptyString]> d
        end
      else d
  | _ => d
  end.

Definition disk_after (evs : list Event) (d : gmap string string) : gmap string string :=
  fold_left disk_step evs d.

(** ** The tool instance and its host *)

(** The attributes and settings of [self] that the plugin reads.
    [get_setting] is the settings database, already rendered with [str];
    [lef_files] is what [read_libs([lef_filter], to_plain_item)] yields and
    [liberty_libs] what the liberty filter yields. *)
Record Innovus := {
  run_dir : string;
  top_module : string;
  input_files : list string;
  post_synth_sdc : string;
  get_setting : string -> string;
  lef_files : list string;
  liberty_libs : list string;
  verbose : bool
}.

(** The machine the plugin runs on: the working directory of the process
    and whether launching a given command line raises.  The two POSIX
    utilities whose names the plugin hard-codes are taken to be installed;
    the place-and-route binary comes from the settings and may be missing. *)
Record Host := {
  getcwd : string;
  spawn_fails : list string -> bool
}.

Section Plugin.

Variable self : Innovus.
Variable host : Host.

(** *** Collaborators inherited from the framework *)

(** Modelled from the spec: [create_enter_script] of the base class is
    missing; it stages the environment script and is recorded as one
    opaque event. *)
Definition create_enter_script : M unit := emit EvEnterScript.

(** Modelled from the spec: [verbose_tcl_append] of the base class is
    missing.  It appends the command to the buffer and, if verbose
    diagnostics are enabled, surfaces it to the logger; any string is
    accepted as it is. *)
Definition verbose_tcl_append (cmd : string) (output_buffer : list string)
  : M (list string) :=
  (if verbose self then emit (EvLog LInfo cmd) else ret tt) ;;;
  ret (output_buffer ++ [cmd]).

(** Modelled from the spec: [check_input_files] of the base class is
    missing.  The input files must include at least one file with one of
    the given extensions. *)
Definition check_input_files (extensions : list string) : bool :=
  existsb (fun name => existsb (PyStr.endswith name) extensions)
          (input_files self).

(** Modelled from the spec: [get_liberty_libs] of [CadenceTool] is
    missing; the library-set declaration references all library paths. *)
Definition get_liberty_libs : string := PyStr.join " " (liberty_libs self).

(** Modelled from the spec: [run_executable] of the base class is
    missing.  It launches the command line as a subprocess and waits for
    it; the exit status is not inspected, but a command that cannot be
    launched raises. *)
Definition run_executable (args : list string) (cwd : option string) : M unit :=
  emit (EvExec args cwd) ;;;
  match args with
  | prog :: _ =>
      if String.eqb prog "touch" || String.eqb prog "chmod" then ret tt
      else if spawn_fails host args then raise (OSError args) else ret tt
  | [] => raise (OSError args)
  end.

(** [self.logger.error(msg)]. *)
Definition logger_error (msg : string) : M unit := emit (EvLog LError msg).

(** *** [generate_floorplan_tcl] *)

Definition generate_floorplan_tcl : M (list string) :=
  let output := [] in
  let output := output ++ ["# Floorplan automatically generated from HAMMER"] in
  let output := output ++
    ["create_floorplan -core_margins_by die -die_size_by_io_height max -die_size {1100.0 400.0 100 100 100 100}"] in
  ret output.

(** *** [create_floorplan_tcl] *)

Definition create_floorplan_tcl : M (list string) :=
  let output := [] in
  let floorplan_mode := get_setting self "par.innovus.floorplan_mode" in
  if String.eqb floorplan_mode "manual" then
    let floorplan_script_contents :=
      get_setting self "par.innovus.floorplan_script_contents" in
    let output := output ++ ["# Floorplan manually specified from HAMMER"] in
    let output := output ++ PyStr.split PyStr.lf floorplan_script_contents in
    ret output
  else if String.eqb floorplan_mode "generate" then
    generated <- generate_floorplan_tcl ;;
    ret (output ++ generated)
  else
    (if negb (String.eqb floorplan_mode "blank") then
       logger_error ("Invalid floorplan_mode " +:+ floorplan_mode
                     +:+ ". Using blank floorplan.")
     else ret tt) ;;;
    ret (output ++ ["# Blank floorplan specified from HAMMER"]).

(** *** [generate_mmmc_script] *)

Definition generate_mmmc_script : M string :=
  let mmmc_output := [] in
  let append_mmmc := verbose_tcl_append in
  (* First, create an Innovus library set. *)
  let library_set_name := "my_lib_set" in
  mmmc_output <- append_mmmc
    ("create_library_set -name " +:+ library_set_name
     +:+ " -timing [list " +:+ get_liberty_libs +:+ "]") mmmc_output ;;
  (* Next, create an Innovus timing condition. *)
  let timing_condition_name := "my_timing_condition" in
  mmmc_output <- append_mmmc
    ("create_timing_condition -name " +:+ timing_condition_name
     +:+ " -library_sets [list " +:+ library_set_name +:+ "]") mmmc_output ;;
  (* Next, create an Innovus delay corner. *)
  let delay_corner_name := "my_delay_corner" in
  mmmc_output <- append_mmmc
    ("create_delay_corner -name " +:+ delay_corner_name
     +:+ " -timing_condition " +:+ timing_condition_name) mmmc_output ;;
  (* In parallel, create an Innovus constraint mode. *)
  let constraint_mode := "my_constraint_mode" in
  let sdc_files := [] in
  (* Add the post-synthesis SDC, if present. *)
  let sdc_files :=
    if negb (String.eqb (post_synth_sdc self) EmptyString)
    then sdc_files ++ [post_synth_sdc self] else sdc_files in
  sdc_files_arg <-
    (if 0 <? length sdc_files then
       ret ("-sdc_files [list " +:+ PyStr.join " " sdc_files +:+ "]")
     else
       let blank_sdc := path_join (run_dir self) "blank.sdc" in
       run_executable ["touch"; blank_sdc] None ;;;
       ret ("-sdc_files { " +:+ blank_sdc +:+ " }")) ;;
  mmmc_output <- append_mmmc
    ("create_constraint_mode -name " +:+ constraint_mode
     +:+ " " +:+ sdc_files_arg) mmmc_output ;;
  (* Next, create an Innovus analysis view. *)
  let analysis_view_name := "my_view" in
  mmmc_output <- append_mmmc
    ("create_analysis_view -name " +:+ analysis_view_name
     +:+ " -delay_corner " +:+ delay_corner_name
     +:+ " -constraint_mode " +:+ constraint_mode) mmmc_output ;;
  (* Finally, apply the analysis view. *)
  mmmc_output <- append_mmmc
    ("set_analysis_view -setup { " +:+ analysis_view_name
     +:+ " } -hold { " +:+ analysis_view_name +:+ " }") mmmc_output ;;
  ret (PyStr.join PyStr.nl mmmc_output).

(** *** [do_run] *)

Definition do_run : M bool :=
  create_enter_script ;;;
  let output := [] in
  let verbose_append := verbose_tcl_append in
  (* Read LEF layouts. *)
  output <- verbose_append
    ("read_physical -lef { " +:+ PyStr.join " " (lef_files self) +:+ " }")
    output ;;
  (* Read timing libraries. *)
  let mmmc_path := path_join (run_dir self) "mmmc.tcl" in
  write_file mmmc_path generate_mmmc_script ;;;
  output <- verbose_append ("read_mmmc " +:+ mmmc_path) output ;;
  (* Read netlist. *)
  if negb (check_input_files [".v"]) then ret false
  else
    let abspath_input_files :=
      map (fun name => path_join (getcwd host) name) (input_files self) in
    output <- verbose_append
      ("read_netlist { " +:+ PyStr.join " " abspath_input_files
       +:+ " } -top " +:+ top_module self) output ;;
    (* Run init_design. *)
    output <- verbose_append "init_design" output ;;
    (* Set design mode to express effort. *)
    output <- verbose_append "set_db design_flow_effort express" output ;;
    let floorplan_tcl := path_join (run_dir self) "floorplan.tcl" in
    write_file floorplan_tcl
      (floorplan <- create_floorplan_tcl ;; ret (PyStr.join PyStr.nl floorplan)) ;;;
    output <- verbose_append ("source -echo -verbose " +:+ floorplan_tcl) output ;;
    (* Place the design and do pre-routing optimization. *)
    output <- verbose_append "place_opt_design" output ;;
    (* Route the design. *)
    output <- verbose_append "route_design" output ;;
    (* Post-route optimization. *)
    output <- verbose_append "opt_design -post_route -setup -hold" output ;;
    (* Save the Innovus design. *)
    let output_innovus_lib_name := top_module self +:+ "_ENC" in
    output <- verbose_append
      ("write_db " +:+ output_innovus_lib_name +:+ " -def -verilog") output ;;
    (* GDS streamout. *)
    output <- verbose_append
      "write_stream -output_macros -mode ALL -unit 1000 gds_file" output ;;
    (* Quit Innovus. *)
    output <- verbose_append "exit" output ;;
    (* Create par script. *)
    let par_tcl_filename := path_join (run_dir self) "par.tcl" in
    write_file par_tcl_filename (ret (PyStr.join PyStr.nl output)) ;;;
    (* Make sure that generated-scripts exists. *)
    let generated_scripts_dir := path_join (run_dir self) "generated-scripts" in
    makedirs generated_scripts_dir ;;;
    (* Create open_chip script. *)
    write_file (path_join generated_scripts_dir "open_chip.tcl")
      (ret (PyStr.nl +:+ "read_db " +:+ output_innovus_lib_name +:+ PyStr.nl
            +:+ "        ")) ;;;
    write_file (path_join generated_scripts_dir "open_chip")
      (ret (PyStr.nl +:+ "cd " +:+ run_dir self +:+ PyStr.nl
            +:+ "source enter" +:+ PyStr.nl
            +:+ "$INNOVUS_BIN -common_ui -files generated-scripts/open_chip.tcl"
            +:+ PyStr.nl +:+ "        ")) ;;;
    run_executable
      ["chmod"; "+x"; path_join generated_scripts_dir "open_chip"] None ;;;
    (* Build args. *)
    let args :=
      [get_setting self "par.innovus.innovus_bin";
       "-nowin"; "-common_ui"; "-files"; par_tcl_filename] in
    (* Temporarily disable colours/tag to make run output more readable. *)
    set_enable_colour false ;;;
    set_enable_tag false ;;;
    run_executable args (Some (run_dir self)) ;;;
    set_enable_colour true ;;;
    set_enable_tag true ;;;
    ret true.

End Plugin.


(** ** Reading the generated scripts *)

(** What a verbose append surfaces to the logger. *)
Definition echoed (self : Innovus) (cmd : string) : list Event :=
  if verbose self then [EvLog LInfo cmd] else [].

(** The steps of the run script, named after the Innovus command that
    carries each of them out. *)
Inductive RunStep :=
| ReadLayout | ReadTiming | ReadNetlist | InitDesign | SetEffort
| SourceFloorplan | PlaceOptimize | Route | PostRouteFixup
| WriteDatabase | StreamExport | Exit.

Definition run_step (cmd : string) : option RunStep :=
  let w := PyStr.first_word cmd in
  if String.eqb w "read_physical" then Some ReadLayout
  else if String.eqb w "read_mmmc" then Some ReadTiming
  else if String.eqb w "read_netlist" then Some ReadNetlist
  else if String.eqb w "init_design" then Some InitDesign
  else if String.eqb w "set_db" then Some SetEffort
  else if String.eqb w "source" then Some SourceFloorplan
  else if String.eqb w "place_opt_design" then Some PlaceOptimize
  else if String.eqb w "route_design" then Some Route
  else if String.eqb w "opt_design" then Some PostRouteFixup
  else if String.eqb w "write_db" then Some WriteDatabase
  else if String.eqb w "write_stream" then Some StreamExport
  else if String.eqb w "exit" then Some Exit
  else None.

(** The declarations of the timing script. *)
Inductive MmmcDecl :=
| LibrarySet | TimingCondition | DelayCorner | ConstraintMode
| AnalysisView | ApplyView.

Definition mmmc_decl (cmd : string) : option MmmcDecl :=
  let w := PyStr.first_word cmd in
  if String.eqb w "create_library_set" then Some LibrarySet
  else if String.eqb w "create_timing_condition" then Some TimingCondition
  else if String.eqb w "create_delay_corner" then Some DelayCorner
  else if String.eqb w "create_constraint_mode" then Some ConstraintMode
  else if String.eqb w "create_analysis_view" then Some AnalysisView
  else if String.eqb w "set_analysis_view" then Some ApplyView
  else None.

Definition mmmc_decl_eqb (a b : MmmcDecl) : bool :=
  match a, b with
  | LibrarySet, LibrarySet | TimingCondition, TimingCondition
  | DelayCorner, DelayCorner | ConstraintMode, ConstraintMode
  | AnalysisView, AnalysisView | ApplyView, ApplyView => true
  | _, _ => false
  end.

(** How many commands of a script are declarations of kind [k]. *)
Definition count_decl (k : MmmcDecl) (cmds : list string) : nat :=
  length (List.filter (fun c => match mmmc_decl c with
                           | Some k' => mmmc_decl_eqb k k'
                           | None => false
                           end) cmds).

(** Whether an event opens or writes the file at [path]. *)
Definition touches_file (path : string) (e : Event) : bool :=
  match e with
  | EvOpen p | EvWrite p _ => String.eqb p path
  | _ => false
  end.

(** Whether an event changes the file at [path]: by opening or writing it,
    or by touching it. *)
Definition affects_file (path : string) (e : Event) : bool :=
  touches_file path e
  || match e with
     | EvExec [prog; p] _ => String.eqb prog "touch" && String.eqb p path
     | _ => false
     end.

(** Whether an event launches a subprocess. *)
Definition is_exec (e : Event) : bool :=
  match e with
  | EvExec _ _ => true
  | _ => false
  end.

(** The file names of the run directory. *)
Definition mmmc_path (self : Innovus) : string := path_join (run_dir self) "mmmc.tcl".
Definition par_path (self : Innovus) : string := path_join (run_dir self) "par.tcl".
Definition floorplan_path (self : Innovus) : string :=
  path_join (run_dir self) "floorplan.tcl".
Definition blank_sdc_path (self : Innovus) : string :=
  path_join (run_dir self) "blank.sdc".
Definition open_chip_tcl_path (self : Innovus) : string :=
  path_join (path_join (run_dir self) "generated-scripts") "open_chip.tcl".

(** The command line that launches the tool. *)
Definition tool_args (self : Innovus) : list string :=
  [get_setting self "par.innovus.innovus_bin";
   "-nowin"; "-common_ui"; "-files"; par_path self].

(** The value of [output_innovus_lib_name] in [do_run]. *)
Definition output_innovus_lib_name (self : Innovus) : string :=
  top_module self +:+ "_ENC".

(** The value of [sdc_files_arg] in [generate_mmmc_script]. *)
Definition sdc_files_arg (self : Innovus) : string :=
  if String.eqb (post_synth_sdc self) EmptyString
  then "-sdc_files { " +:+ blank_sdc_path self +:+ " }"
  else "-sdc_files [list " +:+ post_synth_sdc self +:+ "]".

(** The value of [mmmc_output] when [generate_mmmc_script] returns. *)
Definition mmmc_commands (self : Innovus) : list string :=
  ["create_library_set -name my_lib_set -timing [list "
     +:+ get_liberty_libs self +:+ "]";
   "create_timing_condition -name my_timing_condition -library_sets [list my_lib_set]";
   "create_delay_corner -name my_delay_corner -timing_condition my_timing_condition";
   "create_constraint_mode -name my_constraint_mode " +:+ sdc_files_arg self;
   "create_analysis_view -name my_view -delay_corner my_delay_corner -constraint_mode my_constraint_mode";
   "set_analysis_view -setup { my_view } -hold { my_view }"].

(** The value of [output] when [do_run] writes the run script. *)
Definition run_commands (self : Innovus) (host : Host) : list string :=
  ["read_physical -lef { " +:+ PyStr.join " " (lef_files self) +:+ " }";
   "read_mmmc " +:+ mmmc_path self;
   "read_netlist { "
     +:+ PyStr.join " " (map (path_join (getcwd host)) (input_files self))
     +:+ " } -top " +:+ top_module self;
   "init_design";
   "set_db design_flow_effort express";
   "source -echo -verbose " +:+ floorplan_path self;
   "place_opt_design";
   "route_design";
   "opt_design -post_route -setup -hold";
   "write_db " +:+ output_innovus_lib_name self +:+ " -def -verilog";
   "write_stream -output_macros -mode ALL -unit 1000 gds_file";
   "exit"].

(** What [generate_mmmc_script] does to the outside world. *)
Definition mmmc_events (self : Innovus) : list Event :=
  echoed self (nth 0 (mmmc_commands self) EmptyString)
  ++ echoed self (nth 1 (mmmc_commands self) EmptyString)
  ++ echoed self (nth 2 (mmmc_commands self) EmptyString)
  ++ (if String.eqb (post_synth_sdc self) EmptyString
      then [EvExec ["touch"; blank_sdc_path self] None] else [])
  ++ echoed self (nth 3 (mmmc_commands self) EmptyString)
  ++ echoed self (nth 4 (mmmc_commands self) EmptyString)
  ++ echoed self (nth 5 (mmmc_commands self) EmptyString).

(** What [do_run] has done by the time it checks the input files. *)
Definition netlist_check_events (self : Innovus) : list Event :=
  [EvEnterScript]
  ++ echoed self ("read_physical -lef { " +:+ PyStr.join " " (lef_files self) +:+ " }")
  ++ [EvOpen (mmmc_path self)]
  ++ mmmc_events self
  ++ [EvWrite (mmmc_path self) (PyStr.join PyStr.nl (mmmc_commands self))]
  ++ echoed self ("read_mmmc " +:+ mmmc_path self).

(** Whether launching the tool raises. *)
Definition launch_raises (self : Innovus) (host : Host) : bool :=
  let prog := get_setting self "par.innovus.innovus_bin" in
  negb (String.eqb prog "touch" || String.eqb prog "chmod")
  && spawn_fails host (tool_args self).

(** What [do_run] writes and launches once the run script is complete. *)
Definition runner_events (self : Innovus) (host : Host) : list Event :=
  [EvOpen (par_path self);
   EvWrite (par_path self) (PyStr.join PyStr.nl (run_commands self host));
   EvMkdir (path_join (run_dir self) "generated-scripts");
   EvOpen (open_chip_tcl_path self);
   EvWrite (open_chip_tcl_path self)
     (PyStr.nl +:+ "read_db " +:+ output_innovus_lib_name self +:+ PyStr.nl
      +:+ "        ");
   EvOpen (path_join (path_join (run_dir self) "generated-scripts") "open_chip");
   EvWrite (path_join (path_join (run_dir self) "generated-scripts") "open_chip")
     (PyStr.nl +:+ "cd " +:+ run_dir self +:+ PyStr.nl
      +:+ "source enter" +:+ PyStr.nl
      +:+ "$INNOVUS_BIN -common_ui -files generated-scripts/open_chip.tcl"
      +:+ PyStr.nl +:+ "        ");
   EvExec ["chmod"; "+x";
           path_join (path_join (run_dir self) "generated-scripts") "open_chip"]
          None;
   EvExec (tool_args self) (Some (run_dir self))].

(** What [do_run] does between the check of the input files and the
    completion of the run script, given the floorplan commands [fp] and the
    events [fpev] of [create_floorplan_tcl]. *)
Definition assembly_events (self : Innovus) (host : Host)
    (fp : list string) (fpev : list Event) : list Event :=
  echoed self (nth 2 (run_commands self host) EmptyString)
  ++ echoed self (nth 3 (run_commands self host) EmptyString)
  ++ echoed self (nth 4 (run_commands self host) EmptyString)
  ++ [EvOpen (floorplan_path self)] ++ fpev
  ++ [EvWrite (floorplan_path self) (PyStr.join PyStr.nl fp)]
  ++ echoed self (nth 5 (run_commands self host) EmptyString)
  ++ echoed self (nth 6 (run_commands self host) EmptyString)
  ++ echoed self (nth 7 (run_commands self host) EmptyString)
  ++ echoed self (nth 8 (run_commands self host) EmptyString)
  ++ echoed self (nth 9 (run_commands self host) EmptyString)
  ++ echoed self (nth 10 (run_commands self host) EmptyString)
  ++ echoed self (nth 11 (run_commands self host) EmptyString).

(** ** Sample configurations *)

Definition sample_settings (mode contents : string) (key : string) : string :=
  if String.eqb key "par.innovus.floorplan_mode" then mode
  else if String.eqb key "par.innovus.floorplan_script_contents" then contents
  else if String.eqb key "par.innovus.innovus_bin" then "/opt/cadence/bin/innovus"
  else EmptyString.

(** A design with top module [core], run in [/build/par-rundir]. *)
Definition sample (mode : string) (files : list string) (sdc : string) : Innovus :=
  {| run_dir := "/build/par-rundir";
     top_module := "core";
     input_files := files;
     post_synth_sdc := sdc;
     get_setting := sample_settings mode ("A" +:+ PyStr.nl +:+ "B");
     lef_files := ["/pdk/tech.lef"; "/pdk/cells.lef"];
     liberty_libs := ["/pdk/cells_tt.lib"];
     verbose := true |}.

(** A design whose settings all ask for a die of 2000 by 800 with margins
    of 50, under whatever key they are looked up. *)
Definition sample_die : Innovus :=
  {| run_dir := "/build/par-rundir";
     top_module := "core";
     input_files := ["core.mapped.v"];
     post_synth_sdc := EmptyString;
     get_setting := fun key =>
       if String.eqb key "par.innovus.floorplan_mode" then "generate"
       else "2000.0 800.0 50 50 50 50";
     lef_files := [];
     liberty_libs := ["/pdk/cells_tt.lib"];
     verbose := false |}.

Definition sample_host (fails : bool) : Host :=
  {| getcwd := "/work"; spawn_fails := fun _ => fails |}.

Definition logging_on : Logging := {| enable_colour := true; enable_tag := true |}.

(** ** [env_vars] *)

(** The property [env_vars]: a copy of the variables of the base classes,
    [base], in which [INNOVUS_BIN] is set to the configured binary. *)
Definition env_vars (base : gmap string string) (self : Innovus)
  : gmap string string :=
  let v := base in
  <["INNOVUS_BIN" := get_setting self "par.innovus.innovus_bin"]> v.

(** ** More ways to read a run *)

(** The value of [output] when [create_floorplan_tcl] returns. *)
Definition floorplan_commands (self : Innovus) : list string :=
  let floorplan_mode := get_setting self "par.innovus.floorplan_mode" in
  if String.eqb floorplan_mode "manual" then
    "# Floorplan manually specified from HAMMER"
    :: PyStr.split PyStr.lf (get_setting self "par.innovus.floorplan_script_contents")
  else if String.eqb floorplan_mode "generate" then
    ["# Floorplan automatically generated from HAMMER";
     "create_floorplan -core_margins_by die -die_size_by_io_height max -die_size {1100.0 400.0 100 100 100 100}"]
  else ["# Blank floorplan specified from HAMMER"].

(** What [create_floorplan_tcl] does to the outside world. *)
Definition floorplan_events (self : Innovus) : list Event :=
  let floorplan_mode := get_setting self "par.innovus.floorplan_mode" in
  if String.eqb floorplan_mode "manual" then []
  else if String.eqb floorplan_mode "generate" then []
  else if String.eqb floorplan_mode "blank" then []
  else [EvLog LError ("Invalid floorplan_mode " +:+ floorplan_mode
                      +:+ ". Using blank floorplan.")].

Definition open_chip_path (self : Innovus) : string :=
  path_join (path_join (run_dir self) "generated-scripts") "open_chip".

(** Whether an event, if it creates or changes a file or a directory,
    does so at a path that starts with [dir]. *)
Definition stays_under (dir : string) (e : Event) : bool :=
  match e with
  | EvOpen p | EvWrite p _ | EvMkdir p => String.prefix dir p
  | EvExec [prog; p] _ =>
      if String.eqb prog "touch" then String.prefix dir p else true
  | EvExec [prog; _; p] _ =>
      if String.eqb prog "chmod" then String.prefix dir p else true
  | _ => true
  end.

(** [s.count(c)] for a character [c]. *)
Fixpoint count_char (c : ascii) (s : string) : nat :=
  match s with
  | EmptyString => 0
  | String d s' => (if Ascii.eqb d c then 1 else 0) + count_char c s'
  end.

Definition logging_off : Logging := {| enable_colour := false; enable_tag := false |}.

(** * Properties *)

(** ** Python strings *)

Section StringFacts.

Lemma append_cons (c : ascii) (a b : string) :
  String c a +:+ b = String c (a +:+ b).
Proof. reflexivity. Qed.

Lemma append_nil_l (b : string) : EmptyString +:+ b = b.
Proof. reflexivity. Qed.

Lemma append_nil_r (s : string) : s +:+ EmptyString = s.
Proof.
  induction s as [|c s IH]; [reflexivity |].
  now rewrite append_cons, IH.
Qed.

Lemma append_assoc (a b c : string) : (a +:+ b) +:+ c = a +:+ (b +:+ c).
Proof.
  induction a as [|x a IH]; [reflexivity |].
  now rewrite !append_cons, IH.
Qed.

Lemma append_inj_l (a b c : string) : a +:+ b = a +:+ c -> b = c.
Proof.
  induction a as [|x a IH]; [exact (fun E => E) |].
  rewrite !append_cons. intros E. injection E as E. auto.
Qed.

Lemma prefix_append (m q : string) : String.prefix m (m +:+ q) = true.
Proof.
  induction m as [|c m IH].
  - destruct q; reflexivity.
  - rewrite append_cons. simpl.
    destruct (ascii_dec c c) as [_|N]; [exact IH | contradiction].
Qed.

Lemma contains_unfold (m s : string) :
  PyStr.contains m s
  = String.prefix m s
    || match s with
       | EmptyString => false
       | String _ s' => PyStr.contains m s'
       end.
Proof. destruct s; reflexivity. Qed.

Lemma contains_here (m s : string) :
  String.prefix m s = true -> PyStr.contains m s = true.
Proof. intros E. rewrite contains_unfold, E. reflexivity. Qed.

(** A string occurs in whatever is built around it. *)
Lemma contains_append (p m q : string) :
  PyStr.contains m (p +:+ m +:+ q) = true.
Proof.
  induction p as [|c p IH].
  - rewrite append_nil_l. apply contains_here, prefix_append.
  - rewrite append_cons, contains_unfold, IH. apply orb_true_r.
Qed.

Lemma mem_append (c : ascii) (a b : string) :
  PyStr.mem c (a +:+ b) = PyStr.mem c a || PyStr.mem c b.
Proof.
  induction a as [|x a IH]; [reflexivity |].
  rewrite append_cons. simpl. rewrite IH. apply orb_assoc.
Qed.

Lemma split_nonempty (sep : ascii) (s : string) : PyStr.split sep s <> [].
Proof.
  destruct s as [|c s]; cbn; [discriminate |].
  destruct (Ascii.eqb c sep); [discriminate |].
  destruct (PyStr.split sep s); discriminate.
Qed.

Lemma concat_cons_char (sep : string) (c : ascii) (w : string) (ws : list string) :
  String.concat sep (String c w :: ws) = String c (String.concat sep (w :: ws)).
Proof. destruct ws; reflexivity. Qed.

(** Splitting loses nothing: joining the fields with the separator gives
    the text back. *)
Lemma join_split (sep : ascii) (s : string) :
  PyStr.join (String sep EmptyString) (PyStr.split sep s) = s.
Proof.
  unfold PyStr.join. induction s as [|c s IH]; [reflexivity |].
  cbn [PyStr.split]. destruct (Ascii.eqb_spec c sep) as [->|N].
  - pose proof (split_nonempty sep s) as NE.
    destruct (PyStr.split sep s) as [|w ws]; [contradiction |].
    change (String.concat (String sep EmptyString) (EmptyString :: w :: ws))
      with (String sep (String.concat (String sep EmptyString) (w :: ws))).
    now rewrite IH.
  - pose proof (split_nonempty sep s) as NE.
    destruct (PyStr.split sep s) as [|w ws]; [contradiction |].
    rewrite concat_cons_char. now rewrite IH.
Qed.

Lemma split_no_sep (sep : ascii) (s : string) :
  PyStr.mem sep s = false -> PyStr.split sep s = [s].
Proof.
  induction s as [|c s IH]; cbn; [reflexivity |].
  intros E. apply orb_false_iff in E as [E1 E2].
  rewrite E1, (IH E2). reflexivity.
Qed.

Lemma split_append_sep (sep : ascii) (a b : string) :
  PyStr.mem sep a = false ->
  PyStr.split sep (a +:+ String sep b) = a :: PyStr.split sep b.
Proof.
  induction a as [|c a IH].
  - intros _. rewrite append_nil_l. simpl. now rewrite Ascii.eqb_refl.
  - rewrite append_cons. simpl. intros E. apply orb_false_iff in E as [E1 E2].
    rewrite E1, (IH E2). reflexivity.
Qed.

(** Joining fields that hold no separator and splitting again gives the
    fields back. *)
Lemma split_join (sep : ascii) (l : list string) :
  l <> [] ->
  Forall (fun s => PyStr.mem sep s = false) l ->
  PyStr.split sep (PyStr.join (String sep EmptyString) l) = l.
Proof.
  unfold PyStr.join. induction l as [|x l IH]; [contradiction |].
  intros _ F. inversion F as [|? ? Hx Hl]; subst.
  destruct l as [|y l].
  - cbn. now apply split_no_sep.
  - change (String.concat (String sep EmptyString) (x :: y :: l))
      with (x +:+ String sep (String.concat (String sep EmptyString) (y :: l))).
    rewrite split_append_sep by exact Hx.
    rewrite IH; [reflexivity | discriminate | exact Hl].
Qed.

End StringFacts.

(** ** Paths *)

(** Two different relative names give different files of one directory. *)
Lemma path_join_rel_inj (a b1 b2 : string) :
  PyStr.startswith b1 "/" = false ->
  PyStr.startswith b2 "/" = false ->
  path_join a b1 = path_join a b2 -> b1 = b2.
Proof.
  unfold path_join. intros -> ->.
  destruct (String.eqb a EmptyString || PyStr.endswith a "/"); intros E.
  - exact (append_inj_l _ _ _ E).
  - apply append_inj_l in E. now injection E.
Qed.

Lemma path_join_rel_neqb (a b1 b2 : string) :
  PyStr.startswith b1 "/" = false ->
  PyStr.startswith b2 "/" = false ->
  b1 <> b2 ->
  String.eqb (path_join a b1) (path_join a b2) = false.
Proof.
  intros H1 H2 N. apply String.eqb_neq. intros E.
  apply N. exact (path_join_rel_inj a b1 b2 H1 H2 E).
Qed.

Lemma path_join_rel_mem (c : ascii) (a b : string) :
  PyStr.startswith b "/" = false ->
  PyStr.mem c a = false -> PyStr.mem c b = false -> Ascii.eqb "/"%char c = false ->
  PyStr.mem c (path_join a b) = false.
Proof.
  unfold path_join. intros -> Ha Hb Hc.
  assert (Hs : PyStr.mem c "/" = false).
  { change (PyStr.mem c "/") with (Ascii.eqb "/"%char c || false).
    now rewrite Hc. }
  destruct (String.eqb a EmptyString || PyStr.endswith a "/");
    rewrite !mem_append, ?Ha, ?Hb, ?Hs; reflexivity.
Qed.

(** ** The disk *)

Lemma disk_after_app (evs1 evs2 : list Event) (d : gmap string string) :
  disk_after (evs1 ++ evs2) d = disk_after evs2 (disk_after evs1 d).
Proof. unfold disk_after. apply fold_left_app. Qed.

Lemma disk_after_echoed self cmd (d : gmap string string) :
  disk_after (echoed self cmd) d = d.
Proof. unfold echoed. destruct (verbose self); reflexivity. Qed.

(** Nothing the plugin does removes a file. *)
Lemma disk_step_keeps (d : gmap string string) (e : Event) (p : string) :
  is_Some (d !! p) -> is_Some (disk_step d e !! p).
Proof.
  intros Hp. destruct e as [| | q | q c | | args cwd]; simpl; try exact Hp.
  - destruct (decide (q = p)) as [->|N];
      [rewrite lookup_insert_eq; eauto | rewrite lookup_insert_ne; auto].
  - destruct (decide (q = p)) as [->|N];
      [rewrite lookup_insert_eq; eauto | rewrite lookup_insert_ne; auto].
  - destruct args as [|prog [|q [|]]]; try exact Hp.
    destruct (String.eqb prog "touch"); [| exact Hp].
    destruct (d !! q) eqn:E; [exact Hp |].
    destruct (decide (q = p)) as [->|N];
      [rewrite lookup_insert_eq; eauto | rewrite lookup_insert_ne; auto].
Qed.

Lemma disk_after_keeps (evs : list Event) (d : gmap string string) (p : string) :
  is_Some (d !! p) -> is_Some (disk_after evs d !! p).
Proof.
  revert d. induction evs as [|e evs IH]; intros d Hp; [exact Hp |].
  apply IH, disk_step_keeps, Hp.
Qed.

Lemma disk_step_touch (d : gmap string string) (p : string) (cwd : option string) :
  is_Some (disk_step d (EvExec ["touch"; p] cwd) !! p).
Proof.
  simpl. destruct (d !! p) eqn:E.
  - rewrite E. eauto.
  - rewrite lookup_insert_eq. eauto.
Qed.

(** An event that neither opens, writes nor touches [p] leaves it alone. *)
Lemma disk_step_other (d : gmap string string) (e : Event) (p : string) :
  affects_file p e = false -> disk_step d e !! p = d !! p.
Proof.
  unfold affects_file.
  destruct e as [| | q | q c | | args cwd]; simpl; intros H; try reflexivity.
  - rewrite orb_false_r in H. apply String.eqb_neq in H.
    now rewrite lookup_insert_ne.
  - rewrite orb_false_r in H. apply String.eqb_neq in H.
    now rewrite lookup_insert_ne.
  - destruct args as [|prog [|q [|]]]; try reflexivity.
    destruct (String.eqb prog "touch"); [| reflexivity].
    simpl in H. apply String.eqb_neq in H.
    destruct (d !! q); [reflexivity |]. now rewrite lookup_insert_ne.
Qed.

Lemma disk_after_other (evs : list Event) (d : gmap string string) (p : string) :
  forallb (fun e => negb (affects_file p e)) evs = true ->
  disk_after evs d !! p = d !! p.
Proof.
  revert d. induction evs as [|e evs IH]; intros d H; [reflexivity |].
  simpl in H. apply andb_true_iff in H as [He Hevs].
  apply negb_true_iff in He.
  change (disk_after (e :: evs) d) with (disk_after evs (disk_step d e)).
  rewrite (IH _ Hevs). now apply disk_step_other.
Qed.

(** ** Running the monad *)

Lemma verbose_tcl_append_run self cmd buf lg :
  verbose_tcl_append self cmd buf lg
  = MkRun (Returned (buf ++ [cmd])) (echoed self cmd) lg.
Proof.
  unfold verbose_tcl_append, echoed, bind, emit, ret.
  destruct (verbose self); reflexivity.
Qed.

Lemma bind_raised {A B} (m : M A) (k : A -> M B) lg e evs lg' :
  m lg = MkRun (Raised e) evs lg' ->
  bind m k lg = MkRun (Raised e) evs lg'.
Proof. intros E. unfold bind. rewrite E. reflexivity. Qed.

Lemma bind_run {A B} (m : M A) (k : A -> M B) lg a evs lg' o evs' lg'' :
  m lg = MkRun (Returned a) evs lg' ->
  k a lg' = MkRun o evs' lg'' ->
  bind m k lg = MkRun o (evs ++ evs') lg''.
Proof. intros E1 E2. unfold bind. rewrite E1. cbn. rewrite E2. reflexivity. Qed.

Lemma ret_run {A} (a : A) lg : ret a lg = MkRun (Returned a) [] lg.
Proof. reflexivity. Qed.

Lemma emit_run (e : Event) lg : emit e lg = MkRun (Returned tt) [e] lg.
Proof. reflexivity. Qed.

(** ** The timing script *)

Lemma run_executable_utility host prog args cwd lg :
  String.eqb prog "touch" || String.eqb prog "chmod" = true ->
  run_executable host (prog :: args) cwd lg
  = MkRun (Returned tt) [EvExec (prog :: args) cwd] lg.
Proof.
  intros E. unfold run_executable. rewrite E.
  etransitivity; [eapply bind_run; [apply emit_run | apply ret_run] | reflexivity].
Qed.

(** One step of a run: peel a [bind], or run a primitive. *)
Ltac run_prim :=
  lazymatch goal with
  | |- bind _ _ _ = _ => eapply bind_run
  | |- verbose_tcl_append _ _ _ _ = _ => apply verbose_tcl_append_run
  | |- ret _ _ = _ => apply ret_run
  | |- emit _ _ = _ => apply emit_run
  | |- run_executable _ (_ :: _) _ _ = _ =>
      apply run_executable_utility; reflexivity
  | |- _ => progress cbv beta
  end.

Lemma generate_mmmc_script_run self host lg :
  generate_mmmc_script self host lg
  = MkRun (Returned (PyStr.join PyStr.nl (mmmc_commands self)))
          (mmmc_events self) lg.
Proof.
  unfold generate_mmmc_script, mmmc_events. cbv beta zeta.
  destruct (String.eqb (post_synth_sdc self) EmptyString) eqn:Esdc;
    cbn [negb app length Nat.ltb Nat.leb].
  - etransitivity; [repeat run_prim |].
    unfold mmmc_commands, sdc_files_arg, blank_sdc_path. rewrite Esdc.
    cbn [nth app]. rewrite ?app_nil_r. reflexivity.
  - etransitivity; [repeat run_prim |].
    unfold mmmc_commands, sdc_files_arg. rewrite Esdc.
    cbn [nth app]. rewrite ?app_nil_r. reflexivity.
Qed.

(** ** The launch of the tool *)

Lemma run_executable_raises host prog args cwd lg :
  String.eqb prog "touch" || String.eqb prog "chmod" = false ->
  spawn_fails host (prog :: args) = true ->
  run_executable host (prog :: args) cwd lg
  = MkRun (Raised (OSError (prog :: args))) [EvExec (prog :: args) cwd] lg.
Proof.
  intros E F. unfold run_executable. rewrite E, F.
  etransitivity; [eapply bind_run; [apply emit_run | reflexivity] | reflexivity].
Qed.

Lemma run_executable_returns host prog args cwd lg :
  String.eqb prog "touch" || String.eqb prog "chmod" = true
  \/ spawn_fails host (prog :: args) = false ->
  run_executable host (prog :: args) cwd lg
  = MkRun (Returned tt) [EvExec (prog :: args) cwd] lg.
Proof.
  intros H. unfold run_executable.
  destruct (String.eqb prog "touch" || String.eqb prog "chmod") eqn:E.
  - etransitivity; [eapply bind_run; [apply emit_run | apply ret_run] | reflexivity].
  - destruct H as [H | H]; [discriminate | rewrite H].
    etransitivity; [eapply bind_run; [apply emit_run | apply ret_run] | reflexivity].
Qed.

(** The launch of the tool and what follows it in [do_run]. *)
Lemma launch_and_restore self host lg :
  bind (run_executable host
          [get_setting self "par.innovus.innovus_bin";
           "-nowin"; "-common_ui"; "-files"; path_join (run_dir self) "par.tcl"]
          (Some (run_dir self)))
       (fun _ => bind (set_enable_colour true)
                   (fun _ => bind (set_enable_tag true) (fun _ => ret true))) lg
  = MkRun (if launch_raises self host
           then Raised (OSError (tool_args self)) else Returned true)
          ([EvExec (tool_args self) (Some (run_dir self))] ++ [])
          (if launch_raises self host
           then lg else {| enable_colour := true; enable_tag := true |}).
Proof.
  unfold launch_raises, tool_args, par_path.
  destruct (String.eqb (get_setting self "par.innovus.innovus_bin") "touch"
            || String.eqb (get_setting self "par.innovus.innovus_bin") "chmod") eqn:E;
    [| destruct (spawn_fails host _) eqn:F]; cbn [negb andb].
  - eapply bind_run; [apply run_executable_returns; left; exact E |].
    reflexivity.
  - erewrite bind_raised; [| apply run_executable_raises; [exact E | exact F]].
    reflexivity.
  - eapply bind_run; [apply run_executable_returns; right; exact F |].
    reflexivity.
Qed.

(** One step of [do_run]. *)
Ltac run_one :=
  lazymatch goal with
  | |- bind (run_executable _ (get_setting _ _ :: _) _) _ _ = _ =>
      apply launch_and_restore
  | |- bind _ _ _ = _ => eapply bind_run
  | |- write_file _ _ _ = _ => unfold write_file
  | |- makedirs _ _ = _ => unfold makedirs
  | |- create_enter_script _ = _ => unfold create_enter_script
  | |- generate_mmmc_script _ _ _ = _ => apply generate_mmmc_script_run
  | |- create_floorplan_tcl _ _ = _ => eassumption
  | |- set_enable_colour _ _ = _ => reflexivity
  | |- set_enable_tag _ _ = _ => reflexivity
  | |- verbose_tcl_append _ _ _ _ = _ => apply verbose_tcl_append_run
  | |- ret _ _ = _ => apply ret_run
  | |- emit _ _ = _ => apply emit_run
  | |- run_executable _ (_ :: _) _ _ = _ =>
      apply run_executable_utility; reflexivity
  | |- _ => progress cbv beta
  end.

Ltac run_all := repeat run_one.


(** ** The floorplan *)

Lemma create_floorplan_tcl_returns self lg :
  exists fp fpev, create_floorplan_tcl self lg = MkRun (Returned fp) fpev lg.
Proof.
  unfold create_floorplan_tcl, generate_floorplan_tcl, logger_error.
  cbv beta zeta.
  destruct (String.eqb (get_setting self "par.innovus.floorplan_mode") "manual").
  { eexists _, _; reflexivity. }
  destruct (String.eqb (get_setting self "par.innovus.floorplan_mode") "generate").
  { eexists _, _. repeat run_prim. }
  destruct (String.eqb (get_setting self "par.innovus.floorplan_mode") "blank");
    cbn [negb]; eexists _, _; repeat run_prim.
Qed.

(** ** The run *)

Lemma do_run_no_netlist self host lg :
  check_input_files self [".v"] = false ->
  do_run self host lg = MkRun (Returned false) (netlist_check_events self) lg.
Proof.
  intros Hchk. unfold do_run. rewrite Hchk. cbv beta zeta. cbn [negb].
  etransitivity; [run_all |].
  unfold netlist_check_events, mmmc_path.
  repeat (progress (rewrite <- ?app_assoc, ?app_nil_r; cbn [app])).
  reflexivity.
Qed.

Lemma do_run_netlist self host lg fp fpev :
  check_input_files self [".v"] = true ->
  create_floorplan_tcl self lg = MkRun (Returned fp) fpev lg ->
  do_run self host lg
  = MkRun (if launch_raises self host
           then Raised (OSError (tool_args self)) else Returned true)
          (netlist_check_events self ++ assembly_events self host fp fpev
           ++ runner_events self host)
          (if launch_raises self host
           then {| enable_colour := false; enable_tag := false |}
           else {| enable_colour := true; enable_tag := true |}).
Proof.
  intros Hchk Hfp. unfold do_run. rewrite Hchk. cbv beta zeta. cbn [negb].
  etransitivity; [run_all |].
  unfold netlist_check_events, assembly_events, runner_events, mmmc_path,
    floorplan_path, par_path, open_chip_tcl_path, output_innovus_lib_name.
  cbn [nth run_commands enable_colour enable_tag].
  repeat (progress (rewrite <- ?app_assoc, ?app_nil_r; cbn [app])).
  reflexivity.
Qed.

(** ** Claims about the floorplan *)

(** C8.  In mode [manual] the floorplan is the provenance comment followed
    by the lines of the configured script text, split at line feeds and
    otherwise untouched: joining them again gives the text back.  For the
    text "A", line feed, "B" it is the comment, "A" and "B". *)
Theorem create_floorplan_tcl_manual (self : Innovus) (lg : Logging) :
  get_setting self "par.innovus.floorplan_mode" = "manual" ->
  let contents := get_setting self "par.innovus.floorplan_script_contents" in
  exists lines,
    create_floorplan_tcl self lg
    = MkRun (Returned ("# Floorplan manually specified from HAMMER" :: lines)) [] lg
    /\ lines = PyStr.split PyStr.lf contents
    /\ PyStr.join PyStr.nl lines = contents
    /\ (contents = "A" +:+ PyStr.nl +:+ "B" -> lines = ["A"; "B"]).
Proof.
  intros Hmode contents. exists (PyStr.split PyStr.lf contents).
  split; [| split; [reflexivity | split]].
  - unfold create_floorplan_tcl. rewrite Hmode. reflexivity.
  - apply join_split.
  - intros ->. reflexivity.
Qed.

Lemma create_floorplan_tcl_manual_witness :
  outcome (create_floorplan_tcl (sample "manual" ["core.mapped.v"] EmptyString) logging_on)
  = Returned ["# Floorplan manually specified from HAMMER"; "A"; "B"].
Proof.
  destruct (create_floorplan_tcl_manual
              (sample "manual" ["core.mapped.v"] EmptyString) logging_on
              eq_refl) as (lines & Hrun & _ & _ & HAB).
  rewrite Hrun, (HAB eq_refl). reflexivity.
Defined.

(** C5.  A floorplan mode that is neither [manual] nor [generate] gives the
    blank floorplan and returns normally, with the logging flags untouched.
    Unless the mode is the literal [blank], exactly one error is logged and
    its message contains the mode; for [blank] nothing is logged. *)
Theorem create_floorplan_tcl_other_mode (self : Innovus) (lg : Logging) :
  let mode := get_setting self "par.innovus.floorplan_mode" in
  mode <> "manual" ->
  mode <> "generate" ->
  let r := create_floorplan_tcl self lg in
  outcome r = Returned ["# Blank floorplan specified from HAMMER"]
  /\ logging r = lg
  /\ (mode <> "blank" ->
      events r = [EvLog LError ("Invalid floorplan_mode " +:+ mode
                                +:+ ". Using blank floorplan.")]
      /\ PyStr.contains mode ("Invalid floorplan_mode " +:+ mode
                              +:+ ". Using blank floorplan.") = true)
  /\ (mode = "blank" -> events r = []).
Proof.
  intros mode Hm Hg r. subst r mode. unfold create_floorplan_tcl.
  apply String.eqb_neq in Hm, Hg. rewrite Hm, Hg.
  destruct (String.eqb_spec (get_setting self "par.innovus.floorplan_mode") "blank")
    as [Hb | Hb].
  - cbn [negb]. split; [reflexivity | split; [reflexivity | split]].
    + intros N. contradiction.
    + intros _. reflexivity.
  - cbn [negb]. split; [reflexivity | split; [reflexivity | split]].
    + intros _. split; [reflexivity | apply contains_append].
    + intros E. contradiction.
Qed.

Lemma create_floorplan_tcl_other_mode_witness :
  outcome (create_floorplan_tcl (sample "bogus" ["core.mapped.v"] EmptyString) logging_on)
  = Returned ["# Blank floorplan specified from HAMMER"]
  /\ events (create_floorplan_tcl (sample "bogus" ["core.mapped.v"] EmptyString) logging_on)
    = [EvLog LError "Invalid floorplan_mode bogus. Using blank floorplan."].
Proof.
  destruct (create_floorplan_tcl_other_mode
              (sample "bogus" ["core.mapped.v"] EmptyString) logging_on)
    as (Hout & _ & Hlog & _).
  - discriminate.
  - discriminate.
  - split; [exact Hout |].
    destruct Hlog as [Hev _]; [discriminate | exact Hev].
Defined.

(** C6.  In mode [generate] the floorplan is the provenance comment
    followed by one [create_floorplan] command, and that command is a
    constant of the plugin: its die size and margins are the same whatever
    the settings say. *)
Theorem create_floorplan_tcl_generate_fixed (self : Innovus) (lg : Logging) :
  get_setting self "par.innovus.floorplan_mode" = "generate" ->
  create_floorplan_tcl self lg
  = MkRun (Returned
             ["# Floorplan automatically generated from HAMMER";
              "create_floorplan -core_margins_by die -die_size_by_io_height max -die_size {1100.0 400.0 100 100 100 100}"])
          [] lg.
Proof.
  intros Hmode. unfold create_floorplan_tcl.
  rewrite Hmode. reflexivity.
Qed.

Lemma create_floorplan_tcl_generate_fixed_witness :
  (forall key, key <> "par.innovus.floorplan_mode" ->
               get_setting sample_die key = "2000.0 800.0 50 50 50 50")
  /\ outcome (create_floorplan_tcl sample_die logging_on)
     = Returned
         ["# Floorplan automatically generated from HAMMER";
          "create_floorplan -core_margins_by die -die_size_by_io_height max -die_size {1100.0 400.0 100 100 100 100}"].
Proof.
  split.
  - intros key N. apply String.eqb_neq in N. simpl. rewrite N. reflexivity.
  - rewrite (create_floorplan_tcl_generate_fixed sample_die logging_on eq_refl).
    reflexivity.
Defined.

(** ** Claims about the timing script *)

Lemma mmmc_commands_no_lf (self : Innovus) :
  PyStr.mem PyStr.lf (get_liberty_libs self) = false ->
  PyStr.mem PyStr.lf (post_synth_sdc self) = false ->
  PyStr.mem PyStr.lf (run_dir self) = false ->
  Forall (fun c => PyStr.mem PyStr.lf c = false) (mmmc_commands self).
Proof.
  intros Hlibs Hsdc Hdir.
  assert (Hblank : PyStr.mem PyStr.lf (blank_sdc_path self) = false).
  { apply path_join_rel_mem; [reflexivity | exact Hdir | reflexivity | reflexivity]. }
  assert (Harg : PyStr.mem PyStr.lf (sdc_files_arg self) = false).
  { unfold sdc_files_arg.
    destruct (String.eqb (post_synth_sdc self) EmptyString);
      rewrite !mem_append, ?Hblank, ?Hsdc; reflexivity. }
  unfold mmmc_commands.
  repeat constructor; rewrite ?mem_append, ?Hlibs, ?Harg; reflexivity.
Qed.

(** C3.  The timing script is six commands joined by line feeds: one
    library set, one timing condition, one delay corner, one constraint
    mode and one analysis view, in this order and one of each, followed by
    the directive that applies the view [my_view] for both setup and hold.
    When no path holds a line feed, the lines of the script are these six
    commands. *)
Theorem generate_mmmc_script_declarations
    (self : Innovus) (host : Host) (lg : Logging) :
  exists cmds script,
    outcome (generate_mmmc_script self host lg) = Returned script
    /\ script = PyStr.join PyStr.nl cmds
    /\ map mmmc_decl cmds
       = [Some LibrarySet; Some TimingCondition; Some DelayCorner;
          Some ConstraintMode; Some AnalysisView; Some ApplyView]
    /\ (forall k, count_decl k cmds = 1)
    /\ nth_error cmds 4
       = Some "create_analysis_view -name my_view -delay_corner my_delay_corner -constraint_mode my_constraint_mode"
    /\ nth_error cmds 5
       = Some "set_analysis_view -setup { my_view } -hold { my_view }"
    /\ (PyStr.mem PyStr.lf (get_liberty_libs self) = false ->
        PyStr.mem PyStr.lf (post_synth_sdc self) = false ->
        PyStr.mem PyStr.lf (run_dir self) = false ->
        PyStr.split PyStr.lf script = cmds).
Proof.
  exists (mmmc_commands self), (PyStr.join PyStr.nl (mmmc_commands self)).
  rewrite generate_mmmc_script_run.
  repeat split; try reflexivity.
  - intros k. destruct k; reflexivity.
  - intros Hlibs Hsdc Hdir. apply split_join; [discriminate |].
    now apply mmmc_commands_no_lf.
Qed.

Lemma generate_mmmc_script_declarations_witness :
  exists script,
    outcome (generate_mmmc_script (sample "blank" ["core.mapped.v"] "/syn/core.sdc")
                                  (sample_host false) logging_on)
    = Returned script
    /\ map mmmc_decl (PyStr.split PyStr.lf script)
       = [Some LibrarySet; Some TimingCondition; Some DelayCorner;
          Some ConstraintMode; Some AnalysisView; Some ApplyView].
Proof.
  destruct (generate_mmmc_script_declarations
              (sample "blank" ["core.mapped.v"] "/syn/core.sdc")
              (sample_host false) logging_on)
    as (cmds & script & Hout & _ & Hkinds & _ & _ & _ & Hlines).
  exists script. split; [exact Hout |].
  rewrite (Hlines eq_refl eq_refl eq_refl). exact Hkinds.
Defined.

(** C4.  Without a post-synthesis constraint file the generator touches
    [blank.sdc] in the run directory, so that the file exists afterwards,
    and the constraint mode names it; with one, the constraint mode names
    that file, no subprocess is launched and the disk is as it was.  Either
    way the constraint mode names one file. *)
Theorem generate_mmmc_script_sdc
    (self : Innovus) (host : Host) (lg : Logging) (d : gmap string string) :
  let r := generate_mmmc_script self host lg in
  let blank_sdc := path_join (run_dir self) "blank.sdc" in
  exists cmds,
    outcome r = Returned (PyStr.join PyStr.nl cmds)
    /\ length cmds = 6
    /\ (post_synth_sdc self = EmptyString ->
        nth_error cmds 3
        = Some ("create_constraint_mode -name my_constraint_mode -sdc_files { "
                +:+ blank_sdc +:+ " }")
        /\ In (EvExec ["touch"; blank_sdc] None) (events r)
        /\ is_Some (disk_after (events r) d !! blank_sdc))
    /\ (post_synth_sdc self <> EmptyString ->
        nth_error cmds 3
        = Some ("create_constraint_mode -name my_constraint_mode -sdc_files [list "
                +:+ post_synth_sdc self +:+ "]")
        /\ forallb (fun e => negb (is_exec e)) (events r) = true
        /\ disk_after (events r) d = d).
Proof.
  intros r blank_sdc. subst r blank_sdc. exists (mmmc_commands self).
  rewrite generate_mmmc_script_run. cbn [outcome events].
  split; [reflexivity | split; [reflexivity | split]].
  - intros Hsdc. unfold mmmc_commands, sdc_files_arg, mmmc_events.
    rewrite Hsdc. cbn [String.eqb nth_error].
    split; [reflexivity | split].
    + rewrite !in_app_iff. do 3 right. left. left. reflexivity.
    + rewrite !disk_after_app, !disk_after_echoed.
      apply (disk_step_touch d).
  - intros Hsdc. apply String.eqb_neq in Hsdc.
    unfold mmmc_commands, sdc_files_arg, mmmc_events. rewrite Hsdc.
    cbn [nth_error]. split; [reflexivity | split].
    + unfold echoed. destruct (verbose self); reflexivity.
    + rewrite !disk_after_app, !disk_after_echoed. reflexivity.
Qed.

Lemma generate_mmmc_script_sdc_witness :
  is_Some (disk_after
             (events (generate_mmmc_script (sample "blank" ["core.mapped.v"] EmptyString)
                                           (sample_host false) logging_on))
             (∅ : gmap string string)
           !! "/build/par-rundir/blank.sdc")
  /\ disk_after
       (events (generate_mmmc_script (sample "blank" ["core.mapped.v"] "/syn/core.sdc")
                                     (sample_host false) logging_on))
       (∅ : gmap string string)
     = ∅.
Proof.
  split.
  - destruct (generate_mmmc_script_sdc
                (sample "blank" ["core.mapped.v"] EmptyString)
                (sample_host false) logging_on ∅)
      as (cmds & _ & _ & Hblank & _).
    destruct (Hblank eq_refl) as (_ & _ & Hdisk). exact Hdisk.
  - destruct (generate_mmmc_script_sdc
                (sample "blank" ["core.mapped.v"] "/syn/core.sdc")
                (sample_host false) logging_on ∅)
      as (cmds & _ & _ & _ & Hgiven).
    destruct Hgiven as (_ & _ & Hdisk); [discriminate | exact Hdisk].
Defined.

(** ** Claims about the run *)

Lemma check_input_files_v (self : Innovus) :
  check_input_files self [".v"] = true
  <-> exists name, In name (input_files self) /\ PyStr.endswith name ".v" = true.
Proof.
  unfold check_input_files. rewrite existsb_exists.
  split; intros (name & Hin & H); exists name; (split; [exact Hin |]).
  - simpl in H. now rewrite orb_false_r in H.
  - simpl. now rewrite orb_false_r.
Qed.

Lemma check_input_files_no_v (self : Innovus) :
  (forall name, In name (input_files self) -> PyStr.endswith name ".v" = false) ->
  check_input_files self [".v"] = false.
Proof.
  intros H. apply not_true_is_false. intros E.
  apply check_input_files_v in E as (name & Hin & Hv).
  rewrite (H name Hin) in Hv. discriminate.
Qed.

Lemma mmmc_not_par (self : Innovus) :
  String.eqb (mmmc_path self) (par_path self) = false.
Proof. apply path_join_rel_neqb; [reflexivity | reflexivity | discriminate]. Qed.

Lemma blank_sdc_not_par (self : Innovus) :
  String.eqb (blank_sdc_path self) (par_path self) = false.
Proof. apply path_join_rel_neqb; [reflexivity | reflexivity | discriminate]. Qed.

Lemma echoed_unaffecting (self : Innovus) (cmd p : string) :
  forallb (fun e => negb (affects_file p e)) (echoed self cmd) = true.
Proof. unfold echoed. destruct (verbose self); reflexivity. Qed.

Lemma netlist_check_events_spare_par (self : Innovus) :
  forallb (fun e => negb (affects_file (par_path self) e))
          (netlist_check_events self) = true.
Proof.
  unfold netlist_check_events, mmmc_events.
  rewrite !forallb_app, !echoed_unaffecting.
  destruct (String.eqb (post_synth_sdc self) EmptyString);
    cbn [forallb]; unfold affects_file, touches_file;
    rewrite ?mmmc_not_par, ?blank_sdc_not_par, ?andb_false_r; reflexivity.
Qed.

Lemma netlist_check_events_untouched_par (self : Innovus) :
  forallb (fun e => negb (touches_file (path_join (run_dir self) "par.tcl") e))
          (netlist_check_events self) = true.
Proof.
  pose proof (netlist_check_events_spare_par self) as H.
  rewrite forallb_forall in H |- *. intros e He. specialize (H e He).
  unfold affects_file, par_path in H. apply negb_true_iff in H.
  apply orb_false_iff in H as [H _]. now rewrite H.
Qed.

Lemma in_echoed (self : Innovus) (cmd : string) (e : Event) :
  In e (echoed self cmd) -> e = EvLog LInfo cmd.
Proof.
  unfold echoed. destruct (verbose self); simpl; [intros [<-|[]] | intros []].
  reflexivity.
Qed.

Ltac in_events_cases H :=
  unfold netlist_check_events, mmmc_events in H;
  repeat rewrite in_app_iff in H;
  repeat match type of H with
    | _ \/ _ => destruct H as [H | H]
    | In _ (echoed _ _) => apply in_echoed in H
    | In _ (if ?b then _ else _) => destruct b
    | In _ (_ :: _) => destruct H as [H | H]
    | In _ [] => destruct H
    end.

(** C2.  When no input file ends in [.v], [do_run] returns [False] with the
    logging flags as they were, having done only what precedes the check:
    the one file it has opened or written is [mmmc.tcl], which is not
    [par.tcl]; the one subprocess it may have launched is the [touch] of
    the blank constraint file; and no command of a later step has been
    emitted. *)
Theorem do_run_without_netlist (self : Innovus) (host : Host) (lg : Logging) :
  (forall name, In name (input_files self) -> PyStr.endswith name ".v" = false) ->
  let r := do_run self host lg in
  let par_tcl := path_join (run_dir self) "par.tcl" in
  let mmmc_tcl := path_join (run_dir self) "mmmc.tcl" in
  outcome r = Returned false
  /\ logging r = lg
  /\ events r = netlist_check_events self
  /\ (forall p, In (EvOpen p) (events r) -> p = mmmc_tcl)
  /\ (forall p c, In (EvWrite p c) (events r) -> p = mmmc_tcl)
  /\ mmmc_tcl <> par_tcl
  /\ forallb (fun e => negb (touches_file par_tcl e)) (events r) = true
  /\ (forall args cwd, In (EvExec args cwd) (events r) ->
      args = ["touch"; path_join (run_dir self) "blank.sdc"])
  /\ (forall p, ~ In (EvMkdir p) (events r))
  /\ (forall cmd, In (EvLog LInfo cmd) (events r) ->
      run_step cmd = Some ReadLayout \/ run_step cmd = Some ReadTiming
      \/ mmmc_decl cmd <> None).
Proof.
  intros Hnov r par_tcl mmmc_tcl. subst r par_tcl mmmc_tcl.
  rewrite (do_run_no_netlist self host lg (check_input_files_no_v self Hnov)).
  cbn [outcome events logging].
  split; [reflexivity | split; [reflexivity | split; [reflexivity |]]].
  split; [| split; [| split; [| split; [| split; [| split]]]]].
  - intros p H. in_events_cases H; try discriminate. now injection H as <-.
  - intros p c H. in_events_cases H; try discriminate. now injection H as <- _.
  - apply String.eqb_neq, mmmc_not_par.
  - apply netlist_check_events_untouched_par.
  - intros args cwd H. in_events_cases H; try discriminate. now injection H as <- _.
  - intros p H. in_events_cases H; discriminate.
  - intros cmd H. in_events_cases H; try discriminate;
      injection H as ->;
      first [left; reflexivity | right; left; reflexivity
            | right; right; unfold mmmc_commands; cbn [nth]; discriminate].
Qed.

Lemma do_run_without_netlist_witness :
  outcome (do_run (sample "blank" ["core.vhd"; "core.sdc"] EmptyString)
                  (sample_host false) logging_on) = Returned false
  /\ forallb (fun e => negb (touches_file "/build/par-rundir/par.tcl" e))
             (events (do_run (sample "blank" ["core.vhd"; "core.sdc"] EmptyString)
                             (sample_host false) logging_on)) = true.
Proof.
  destruct (do_run_without_netlist
              (sample "blank" ["core.vhd"; "core.sdc"] EmptyString)
              (sample_host false) logging_on)
    as (Hout & _ & _ & _ & _ & _ & Hpar & _).
  - simpl. intros name [<- | [<- | []]]; reflexivity.
  - split; [exact Hout | exact Hpar].
Defined.

Lemma in_runner_events_par (self : Innovus) (host : Host) :
  In (EvWrite (par_path self) (PyStr.join PyStr.nl (run_commands self host)))
     (runner_events self host).
Proof. unfold runner_events. right. left. reflexivity. Qed.

Lemma in_runner_events_open_chip (self : Innovus) (host : Host) :
  In (EvWrite (open_chip_tcl_path self)
        (PyStr.nl +:+ "read_db " +:+ output_innovus_lib_name self +:+ PyStr.nl
         +:+ "        "))
     (runner_events self host).
Proof. unfold runner_events. do 4 right. left. reflexivity. Qed.

Lemma do_run_events_netlist self host lg :
  check_input_files self [".v"] = true ->
  exists fp fpev,
    events (do_run self host lg)
    = netlist_check_events self ++ assembly_events self host fp fpev
      ++ runner_events self host.
Proof.
  intros Hchk. destruct (create_floorplan_tcl_returns self lg) as (fp & fpev & Hfp).
  exists fp, fpev. now rewrite (do_run_netlist self host lg fp fpev Hchk Hfp).
Qed.

Lemma run_commands_no_lf (self : Innovus) (host : Host) :
  PyStr.mem PyStr.lf (PyStr.join " " (lef_files self)) = false ->
  PyStr.mem PyStr.lf
    (PyStr.join " " (map (path_join (getcwd host)) (input_files self))) = false ->
  PyStr.mem PyStr.lf (top_module self) = false ->
  PyStr.mem PyStr.lf (run_dir self) = false ->
  Forall (fun c => PyStr.mem PyStr.lf c = false) (run_commands self host).
Proof.
  intros Hlef Hin Htop Hdir.
  assert (Hm : PyStr.mem PyStr.lf (mmmc_path self) = false).
  { apply path_join_rel_mem; [reflexivity | exact Hdir | reflexivity | reflexivity]. }
  assert (Hf : PyStr.mem PyStr.lf (floorplan_path self) = false).
  { apply path_join_rel_mem; [reflexivity | exact Hdir | reflexivity | reflexivity]. }
  unfold run_commands, output_innovus_lib_name.
  repeat constructor; rewrite ?mem_append, ?Hlef, ?Hin, ?Htop, ?Hm, ?Hf; reflexivity.
Qed.

(** When no path holds a line feed, the lines of the run script are its
    twelve commands. *)
Lemma run_script_lines (self : Innovus) (host : Host) :
  PyStr.mem PyStr.lf (PyStr.join " " (lef_files self)) = false ->
  PyStr.mem PyStr.lf
    (PyStr.join " " (map (path_join (getcwd host)) (input_files self))) = false ->
  PyStr.mem PyStr.lf (top_module self) = false ->
  PyStr.mem PyStr.lf (run_dir self) = false ->
  PyStr.split PyStr.lf (PyStr.join PyStr.nl (run_commands self host))
  = run_commands self host.
Proof.
  intros Hlef Hin Htop Hdir. apply split_join; [discriminate |].
  now apply run_commands_no_lf.
Qed.

(** C9.  The database name is the top module followed by [_ENC]; the
    [write_db] command of the run script and the [read_db] command of
    [open_chip.tcl] both carry it. *)
Theorem do_run_database_name (self : Innovus) (host : Host) (lg : Logging) :
  check_input_files self [".v"] = true ->
  let name := top_module self +:+ "_ENC" in
  let r := do_run self host lg in
  exists output,
    In (EvWrite (path_join (run_dir self) "par.tcl") (PyStr.join PyStr.nl output))
       (events r)
    /\ nth_error output 9 = Some ("write_db " +:+ name +:+ " -def -verilog")
    /\ map run_step output
       = [Some ReadLayout; Some ReadTiming; Some ReadNetlist; Some InitDesign;
          Some SetEffort; Some SourceFloorplan; Some PlaceOptimize; Some Route;
          Some PostRouteFixup; Some WriteDatabase; Some StreamExport; Some Exit]
    /\ In (EvWrite
             (path_join (path_join (run_dir self) "generated-scripts") "open_chip.tcl")
             (PyStr.nl +:+ "read_db " +:+ name +:+ PyStr.nl +:+ "        "))
          (events r).
Proof.
  intros Hchk name r. subst name r. exists (run_commands self host).
  destruct (do_run_events_netlist self host lg Hchk) as (fp & fpev & ->).
  split; [| split; [reflexivity | split; [reflexivity |]]].
  - rewrite !in_app_iff. right. right. apply in_runner_events_par.
  - rewrite !in_app_iff. right. right. apply in_runner_events_open_chip.
Qed.

Lemma do_run_database_name_witness :
  top_module (sample "blank" ["core.mapped.v"] EmptyString) = "core"
  /\ exists output,
       In (EvWrite "/build/par-rundir/par.tcl" (PyStr.join PyStr.nl output))
          (events (do_run (sample "blank" ["core.mapped.v"] EmptyString)
                          (sample_host false) logging_on))
       /\ nth_error output 9 = Some "write_db core_ENC -def -verilog"
       /\ In (EvWrite "/build/par-rundir/generated-scripts/open_chip.tcl"
                (PyStr.nl +:+ "read_db core_ENC" +:+ PyStr.nl +:+ "        "))
             (events (do_run (sample "blank" ["core.mapped.v"] EmptyString)
                             (sample_host false) logging_on)).
Proof.
  split; [reflexivity |].
  destruct (do_run_database_name (sample "blank" ["core.mapped.v"] EmptyString)
                                 (sample_host false) logging_on eq_refl)
    as (output & Hpar & Hdb & _ & Hopen).
  exists output. split; [exact Hpar | split; [exact Hdb | exact Hopen]].
Defined.

(** What the logging flags are after a run that reaches the launch of the
    tool: enabled when the launch returns, whatever the tool's exit status;
    disabled when the launch raises. *)
Lemma do_run_logging_after_launch (self : Innovus) (host : Host) (lg : Logging) :
  check_input_files self [".v"] = true ->
  logging (do_run self host lg)
  = if launch_raises self host
    then {| enable_colour := false; enable_tag := false |}
    else {| enable_colour := true; enable_tag := true |}.
Proof.
  intros Hchk. destruct (create_floorplan_tcl_returns self lg) as (fp & fpev & Hfp).
  now rewrite (do_run_netlist self host lg fp fpev Hchk Hfp).
Qed.

Lemma do_run_logging_restored (self : Innovus) (host : Host) (lg : Logging) :
  check_input_files self [".v"] = true ->
  launch_raises self host = false ->
  outcome (do_run self host lg) = Returned true
  /\ logging (do_run self host lg) = {| enable_colour := true; enable_tag := true |}.
Proof.
  intros Hchk Hl. destruct (create_floorplan_tcl_returns self lg) as (fp & fpev & Hfp).
  rewrite (do_run_netlist self host lg fp fpev Hchk Hfp), Hl. split; reflexivity.
Qed.

(** C7.  When the launch of the tool raises, the exception leaves [do_run]
    after the two logging flags were disabled and before they are enabled
    again: the run ends with both flags off. *)
Theorem do_run_launch_raises_logging_off
    (self : Innovus) (host : Host) (lg : Logging) :
  check_input_files self [".v"] = true ->
  get_setting self "par.innovus.innovus_bin" <> "touch" ->
  get_setting self "par.innovus.innovus_bin" <> "chmod" ->
  spawn_fails host
    [get_setting self "par.innovus.innovus_bin"; "-nowin"; "-common_ui"; "-files";
     path_join (run_dir self) "par.tcl"] = true ->
  let r := do_run self host lg in
  (exists e, outcome r = Raised e)
  /\ In (EvExec [get_setting self "par.innovus.innovus_bin"; "-nowin";
                 "-common_ui"; "-files"; path_join (run_dir self) "par.tcl"]
                (Some (run_dir self))) (events r)
  /\ enable_colour (logging r) = false
  /\ enable_tag (logging r) = false.
Proof.
  intros Hchk Ht Hc Hs r. subst r.
  destruct (create_floorplan_tcl_returns self lg) as (fp & fpev & Hfp).
  rewrite (do_run_netlist self host lg fp fpev Hchk Hfp).
  assert (Hl : launch_raises self host = true).
  { unfold launch_raises, tool_args, par_path.
    apply String.eqb_neq in Ht, Hc. now rewrite Ht, Hc, Hs. }
  rewrite Hl. cbn [outcome events logging enable_colour enable_tag].
  split; [eexists; reflexivity | split; [| split; reflexivity]].
  rewrite !in_app_iff. right. right.
  unfold runner_events, tool_args, par_path. do 8 right. left. reflexivity.
Qed.

Lemma do_run_launch_raises_logging_off_witness :
  logging_on = {| enable_colour := true; enable_tag := true |}
  /\ outcome (do_run (sample "blank" ["core.mapped.v"] EmptyString)
                     (sample_host true) logging_on)
     = Raised (OSError ["/opt/cadence/bin/innovus"; "-nowin"; "-common_ui";
                        "-files"; "/build/par-rundir/par.tcl"])
  /\ logging (do_run (sample "blank" ["core.mapped.v"] EmptyString)
                     (sample_host true) logging_on)
     = {| enable_colour := false; enable_tag := false |}.
Proof.
  split; [reflexivity |].
  destruct (do_run_launch_raises_logging_off
              (sample "blank" ["core.mapped.v"] EmptyString)
              (sample_host true) logging_on eq_refl)
    as (_ & _ & Hcol & Htag); [discriminate | discriminate | reflexivity |].
  split; [reflexivity |].
  destruct (logging (do_run (sample "blank" ["core.mapped.v"] EmptyString)
                            (sample_host true) logging_on)) as [c t].
  simpl in Hcol, Htag. now rewrite Hcol, Htag.
Defined.

(** * Further properties *)

(** ** The whole run *)

Lemma create_floorplan_tcl_run (self : Innovus) (lg : Logging) :
  create_floorplan_tcl self lg
  = MkRun (Returned (floorplan_commands self)) (floorplan_events self) lg.
Proof.
  unfold create_floorplan_tcl, floorplan_commands, floorplan_events,
    generate_floorplan_tcl, logger_error.
  cbv beta zeta.
  destruct (String.eqb (get_setting self "par.innovus.floorplan_mode") "manual").
  { reflexivity. }
  destruct (String.eqb (get_setting self "par.innovus.floorplan_mode") "generate").
  { etransitivity; [repeat run_prim | reflexivity]. }
  destruct (String.eqb (get_setting self "par.innovus.floorplan_mode") "blank");
    cbn [negb]; (etransitivity; [repeat run_prim | reflexivity]).
Qed.

Lemma do_run_passed (self : Innovus) (host : Host) (lg : Logging) :
  check_input_files self [".v"] = true ->
  do_run self host lg
  = MkRun (if launch_raises self host
           then Raised (OSError (tool_args self)) else Returned true)
          (netlist_check_events self
           ++ assembly_events self host (floorplan_commands self)
                (floorplan_events self)
           ++ runner_events self host)
          (if launch_raises self host
           then {| enable_colour := false; enable_tag := false |}
           else {| enable_colour := true; enable_tag := true |}).
Proof.
  intros Hchk. apply do_run_netlist; [exact Hchk | apply create_floorplan_tcl_run].
Qed.

Lemma in_floorplan_events (self : Innovus) (e : Event) :
  In e (floorplan_events self) ->
  e = EvLog LError ("Invalid floorplan_mode "
                    +:+ get_setting self "par.innovus.floorplan_mode"
                    +:+ ". Using blank floorplan.")
  /\ get_setting self "par.innovus.floorplan_mode" <> "manual"
  /\ get_setting self "par.innovus.floorplan_mode" <> "generate"
  /\ get_setting self "par.innovus.floorplan_mode" <> "blank".
Proof.
  unfold floorplan_events. cbv zeta.
  destruct (String.eqb_spec (get_setting self "par.innovus.floorplan_mode") "manual");
    [intros [] |].
  destruct (String.eqb_spec (get_setting self "par.innovus.floorplan_mode") "generate");
    [intros [] |].
  destruct (String.eqb_spec (get_setting self "par.innovus.floorplan_mode") "blank");
    [intros [] |].
  intros [<- | []]. repeat split; assumption.
Qed.

(** ** More on strings and paths *)

Lemma prefix_nil (s : string) : String.prefix EmptyString s = true.
Proof. destruct s; reflexivity. Qed.

Lemma prefix_app_l (x m q : string) :
  String.prefix x m = true -> String.prefix x (m +:+ q) = true.
Proof.
  revert x. induction m as [|b m IH]; intros x H.
  - destruct x; [apply prefix_nil | discriminate].
  - rewrite append_cons. destruct x as [|a x]; [reflexivity |].
    simpl in H |- *. destruct (ascii_dec a b); [auto | discriminate].
Qed.

Lemma contains_app_l (x m q : string) :
  PyStr.contains x m = true -> PyStr.contains x (m +:+ q) = true.
Proof.
  induction m as [|b m IH]; intros H.
  - rewrite contains_unfold in H. rewrite orb_false_r in H.
    apply contains_here. now apply (prefix_app_l x EmptyString q).
  - rewrite contains_unfold in H. apply orb_true_iff in H as [H | H].
    + apply contains_here. now apply prefix_app_l.
    + rewrite append_cons, contains_unfold, (IH H). apply orb_true_r.
Qed.

Lemma contains_app_r (x p m : string) :
  PyStr.contains x m = true -> PyStr.contains x (p +:+ m) = true.
Proof.
  intros H. induction p as [|c p IH]; [exact H |].
  rewrite append_cons, contains_unfold, IH. apply orb_true_r.
Qed.

Lemma contains_refl (x : string) : PyStr.contains x x = true.
Proof.
  apply contains_here. rewrite <- (append_nil_r x) at 2. apply prefix_append.
Qed.

(** What occurs in a field occurs in the joined text. *)
Lemma contains_join (x sep c : string) (l : list string) :
  In c l -> PyStr.contains x c = true -> PyStr.contains x (PyStr.join sep l) = true.
Proof.
  unfold PyStr.join. induction l as [|y l IH]; [intros [] |].
  intros Hin Hc. destruct l as [|z l].
  - destruct Hin as [-> | []]. exact Hc.
  - change (String.concat sep (y :: z :: l))
      with (y +:+ sep +:+ String.concat sep (z :: l)).
    destruct Hin as [-> | Hin].
    + now apply contains_app_l.
    + apply contains_app_r, contains_app_r. now apply IH.
Qed.

Lemma startswith_slash_app (a x : string) :
  PyStr.startswith a "/" = true -> PyStr.startswith (a +:+ x) "/" = true.
Proof. unfold PyStr.startswith. apply prefix_app_l. Qed.

(** Joining onto an absolute directory gives an absolute path. *)
Lemma path_join_absolute (a b : string) :
  PyStr.startswith a "/" = true -> PyStr.startswith (path_join a b) "/" = true.
Proof.
  intros Ha. unfold path_join.
  destruct (PyStr.startswith b "/") eqn:Hb; [exact Hb |].
  destruct (String.eqb a EmptyString || PyStr.endswith a "/");
    now apply startswith_slash_app.
Qed.

(** A relative name stays below the directory it is joined onto. *)
Lemma path_join_under (a b : string) :
  PyStr.startswith b "/" = false -> String.prefix a (path_join a b) = true.
Proof.
  intros Hb. unfold path_join. rewrite Hb.
  destruct (String.eqb a EmptyString || PyStr.endswith a "/"); apply prefix_append.
Qed.

Lemma path_join_under2 (a g n : string) :
  PyStr.startswith g "/" = false -> PyStr.startswith n "/" = false ->
  String.prefix a (path_join (path_join a g) n) = true.
Proof.
  intros Hg Hn. unfold path_join. rewrite Hg, Hn.
  destruct (String.eqb a EmptyString || PyStr.endswith a "/");
    match goal with |- context [if ?c then _ else _] => destruct c end;
    rewrite !append_assoc; apply prefix_append.
Qed.

(** A file of a subdirectory is not a file of the directory itself. *)
Lemma path_join_nested_neqb (a g n b : string) :
  PyStr.startswith g "/" = false ->
  PyStr.startswith n "/" = false ->
  PyStr.startswith b "/" = false ->
  g +:+ n <> b ->
  g +:+ "/" +:+ n <> b ->
  String.eqb (path_join (path_join a g) n) (path_join a b) = false.
Proof.
  intros Hg Hn Hb N1 N2. apply String.eqb_neq. unfold path_join.
  rewrite Hg, Hn, Hb.
  destruct (String.eqb a EmptyString || PyStr.endswith a "/");
    match goal with |- context [if ?c then _ else _] => destruct c end;
    intros E; rewrite !append_assoc in E;
    repeat (apply append_inj_l in E); contradiction.
Qed.

Ltac literals_differ :=
  let E := fresh "E" in intros E; vm_compute in E; discriminate E.

Lemma floorplan_not_mmmc (self : Innovus) :
  String.eqb (floorplan_path self) (mmmc_path self) = false.
Proof. apply path_join_rel_neqb; [reflexivity | reflexivity | discriminate]. Qed.

Lemma par_not_mmmc (self : Innovus) :
  String.eqb (par_path self) (mmmc_path self) = false.
Proof. apply path_join_rel_neqb; [reflexivity | reflexivity | discriminate]. Qed.

Lemma par_not_floorplan (self : Innovus) :
  String.eqb (par_path self) (floorplan_path self) = false.
Proof. apply path_join_rel_neqb; [reflexivity | reflexivity | discriminate]. Qed.

Lemma open_chip_tcl_not_direct (self : Innovus) (b : string) :
  In b ["mmmc.tcl"; "floorplan.tcl"; "par.tcl"] ->
  String.eqb (open_chip_tcl_path self) (path_join (run_dir self) b) = false.
Proof.
  intros Hb. unfold open_chip_tcl_path.
  destruct Hb as [<- | [<- | [<- | []]]];
    (apply path_join_nested_neqb; [reflexivity | reflexivity | reflexivity | literals_differ | literals_differ]).
Qed.

Lemma open_chip_not_direct (self : Innovus) (b : string) :
  In b ["mmmc.tcl"; "floorplan.tcl"; "par.tcl"] ->
  String.eqb (open_chip_path self) (path_join (run_dir self) b) = false.
Proof.
  intros Hb. unfold open_chip_path.
  destruct Hb as [<- | [<- | [<- | []]]];
    (apply path_join_nested_neqb; [reflexivity | reflexivity | reflexivity | literals_differ | literals_differ]).
Qed.

(** ** More on the disk *)

Lemma disk_after_cons (e : Event) (evs : list Event) (d : gmap string string) :
  disk_after (e :: evs) d = disk_after evs (disk_step d e).
Proof. reflexivity. Qed.

Lemma disk_after_nil (d : gmap string string) : disk_after [] d = d.
Proof. reflexivity. Qed.

Lemma disk_step_write (d : gmap string string) (p c : string) :
  disk_step d (EvWrite p c) !! p = Some c.
Proof. apply lookup_insert_eq. Qed.

Lemma floorplan_events_unaffecting (self : Innovus) (p : string) :
  forallb (fun e => negb (affects_file p e)) (floorplan_events self) = true.
Proof.
  unfold floorplan_events. cbv zeta.
  repeat match goal with |- context [if ?c then _ else _] => destruct c end;
    reflexivity.
Qed.

(** Whether [p] is none of [mmmc.tcl], [floorplan.tcl] and [par.tcl] of the
    run directory is decided by the lemmas above; this tactic shows that an
    event leaves a file alone. *)
Ltac leaves_alone self :=
  first
    [ apply echoed_unaffecting
    | apply floorplan_events_unaffecting
    | unfold affects_file, touches_file;
      pose proof (floorplan_not_mmmc self);
      pose proof (par_not_mmmc self);
      pose proof (par_not_floorplan self);
      pose proof (open_chip_tcl_not_direct self "mmmc.tcl" ltac:(simpl; tauto));
      pose proof (open_chip_tcl_not_direct self "floorplan.tcl" ltac:(simpl; tauto));
      pose proof (open_chip_tcl_not_direct self "par.tcl" ltac:(simpl; tauto));
      pose proof (open_chip_not_direct self "mmmc.tcl" ltac:(simpl; tauto));
      pose proof (open_chip_not_direct self "floorplan.tcl" ltac:(simpl; tauto));
      pose proof (open_chip_not_direct self "par.tcl" ltac:(simpl; tauto));
      unfold floorplan_path, mmmc_path, par_path, open_chip_tcl_path, open_chip_path in *;
      repeat match goal with
        | H : String.eqb ?a ?b = false |- context [String.eqb ?a ?b] => rewrite H
        end;
      reflexivity ].

(** Look a file up on the disk after a list of events: skip, from the last
    event backwards, whatever leaves the file alone. *)
Ltac lookup_back self :=
  repeat first
    [ rewrite disk_after_nil
    | rewrite disk_after_other by leaves_alone self
    | rewrite disk_step_other by leaves_alone self ].

(** With an absolute run directory, when the tool is launched the files
    its run script refers to are in place: [par.tcl] holds the twelve
    commands, the second of which reads [mmmc.tcl], which holds the timing
    script, and the sixth of which sources [floorplan.tcl], which holds the
    floorplan commands.  The three paths are absolute, so they name these
    files from the run directory, where the tool is started.  The launch is
    the last thing the run does. *)
Theorem do_run_files_in_place
    (self : Innovus) (host : Host) (lg : Logging) (d : gmap string string) :
  check_input_files self [".v"] = true ->
  PyStr.startswith (run_dir self) "/" = true ->
  let par_tcl := path_join (run_dir self) "par.tcl" in
  let mmmc_tcl := path_join (run_dir self) "mmmc.tcl" in
  let floorplan_tcl := path_join (run_dir self) "floorplan.tcl" in
  exists pre output mmmc_script floorplan,
    events (do_run self host lg)
    = pre ++ [EvExec [get_setting self "par.innovus.innovus_bin"; "-nowin";
                      "-common_ui"; "-files"; par_tcl] (Some (run_dir self))]
    /\ outcome (generate_mmmc_script self host lg) = Returned mmmc_script
    /\ outcome (create_floorplan_tcl self lg) = Returned floorplan
    /\ disk_after pre d !! par_tcl = Some (PyStr.join PyStr.nl output)
    /\ nth_error output 1 = Some ("read_mmmc " +:+ mmmc_tcl)
    /\ disk_after pre d !! mmmc_tcl = Some mmmc_script
    /\ nth_error output 5 = Some ("source -echo -verbose " +:+ floorplan_tcl)
    /\ disk_after pre d !! floorplan_tcl
       = Some (PyStr.join PyStr.nl floorplan)
    /\ PyStr.startswith par_tcl "/" = true
    /\ PyStr.startswith mmmc_tcl "/" = true
    /\ PyStr.startswith floorplan_tcl "/" = true.
Proof.
  intros Hchk Habs par_tcl mmmc_tcl floorplan_tcl.
  subst par_tcl mmmc_tcl floorplan_tcl.
  exists (netlist_check_events self
          ++ assembly_events self host (floorplan_commands self) (floorplan_events self)
          ++ removelast (runner_events self host)),
    (run_commands self host), (PyStr.join PyStr.nl (mmmc_commands self)),
    (floorplan_commands self).
  rewrite (do_run_passed self host lg Hchk), generate_mmmc_script_run,
    create_floorplan_tcl_run.
  cbn [outcome events].
  split; [| split; [reflexivity | split; [reflexivity |]]].
  { rewrite <- !app_assoc. reflexivity. }
  unfold netlist_check_events, assembly_events, runner_events.
  cbn [removelast].
  change (path_join (run_dir self) "par.tcl") with (par_path self).
  change (path_join (run_dir self) "mmmc.tcl") with (mmmc_path self).
  change (path_join (run_dir self) "floorplan.tcl") with (floorplan_path self).
  change (path_join (path_join (run_dir self) "generated-scripts") "open_chip")
    with (open_chip_path self).
  repeat (rewrite disk_after_app || rewrite disk_after_cons).
  split; [| split; [reflexivity | split; [| split; [reflexivity | split]]]].
  - lookup_back self. apply disk_step_write.
  - lookup_back self. apply disk_step_write.
  - lookup_back self. apply disk_step_write.
  - unfold par_path, mmmc_path, floorplan_path.
    repeat split; now apply path_join_absolute.
Qed.

Lemma do_run_files_in_place_witness :
  check_input_files (sample "manual" ["core.mapped.v"] EmptyString) [".v"] = true
  /\ PyStr.startswith (run_dir (sample "manual" ["core.mapped.v"] EmptyString)) "/"
     = true
  /\ exists pre output,
       events (do_run (sample "manual" ["core.mapped.v"] EmptyString)
                      (sample_host false) logging_on)
       = pre ++ [EvExec ["/opt/cadence/bin/innovus"; "-nowin"; "-common_ui";
                         "-files"; "/build/par-rundir/par.tcl"]
                        (Some "/build/par-rundir")]
       /\ disk_after pre (∅ : gmap string string) !! "/build/par-rundir/par.tcl"
          = Some (PyStr.join PyStr.nl output)
       /\ nth_error output 5
          = Some "source -echo -verbose /build/par-rundir/floorplan.tcl"
       /\ disk_after pre (∅ : gmap string string) !! "/build/par-rundir/floorplan.tcl"
          = Some ("# Floorplan manually specified from HAMMER" +:+ PyStr.nl
                  +:+ "A" +:+ PyStr.nl +:+ "B").
Proof.
  split; [reflexivity | split; [reflexivity |]].
  destruct (do_run_files_in_place (sample "manual" ["core.mapped.v"] EmptyString)
              (sample_host false) logging_on ∅ eq_refl eq_refl)
    as (pre & output & ms & fl & Hev & _ & Hfl & Hpar & _ & _ & Hsrc & Hfp & _).
  exists pre, output. split; [exact Hev | split; [exact Hpar | split; [exact Hsrc |]]].
  etransitivity; [exact Hfp |].
  rewrite create_floorplan_tcl_run in Hfl.
  injection Hfl as <-. reflexivity.
Defined.

Ltac in_run_cases H :=
  unfold netlist_check_events, mmmc_events, assembly_events in H;
  repeat rewrite in_app_iff in H;
  repeat match type of H with
    | _ \/ _ => destruct H as [H | H]
    | In _ (echoed _ _) => apply in_echoed in H
    | In _ (floorplan_events _) => apply in_floorplan_events in H as [H _]
    | In _ (if ?b then _ else _) => destruct b
    | In _ (_ :: _) => destruct H as [H | H]
    | In _ [] => destruct H
    end.

(** The process runner works in this order: it writes [par.tcl], makes
    sure [generated-scripts] exists, writes [open_chip.tcl] and [open_chip]
    into it, makes [open_chip] executable, and launches the tool in the run
    directory.  The tool is launched once: before that, the only subprocess
    is the [touch] of the blank constraint file. *)
Theorem do_run_runner_order (self : Innovus) (host : Host) (lg : Logging) :
  check_input_files self [".v"] = true ->
  let dir := path_join (run_dir self) "generated-scripts" in
  let par_tcl := path_join (run_dir self) "par.tcl" in
  exists pre script reopen_tcl reopen_sh,
    events (do_run self host lg)
    = pre ++ [EvOpen par_tcl; EvWrite par_tcl script;
              EvMkdir dir;
              EvOpen (path_join dir "open_chip.tcl");
              EvWrite (path_join dir "open_chip.tcl") reopen_tcl;
              EvOpen (path_join dir "open_chip");
              EvWrite (path_join dir "open_chip") reopen_sh;
              EvExec ["chmod"; "+x"; path_join dir "open_chip"] None;
              EvExec [get_setting self "par.innovus.innovus_bin"; "-nowin";
                      "-common_ui"; "-files"; par_tcl] (Some (run_dir self))]
    /\ reopen_sh
       = PyStr.nl +:+ "cd " +:+ run_dir self +:+ PyStr.nl
         +:+ "source enter" +:+ PyStr.nl
         +:+ "$INNOVUS_BIN -common_ui -files generated-scripts/open_chip.tcl"
         +:+ PyStr.nl +:+ "        "
    /\ (forall args cwd, In (EvExec args cwd) pre ->
        args = ["touch"; path_join (run_dir self) "blank.sdc"]
        /\ post_synth_sdc self = EmptyString).
Proof.
  intros Hchk dir par_tcl. subst dir par_tcl.
  exists (netlist_check_events self
          ++ assembly_events self host (floorplan_commands self) (floorplan_events self)).
  rewrite (do_run_passed self host lg Hchk). cbn [events].
  do 3 eexists. split; [| split; [reflexivity |]].
  - rewrite <- app_assoc. reflexivity.
  - intros args cwd H. apply in_app_iff in H as [H | H].
    + unfold netlist_check_events, mmmc_events in H.
      repeat rewrite in_app_iff in H.
      destruct (String.eqb_spec (post_synth_sdc self) EmptyString) as [Hs | Hs];
        in_run_cases H; try discriminate.
      injection H as <- _. split; [reflexivity | exact Hs].
    + in_run_cases H; discriminate.
Qed.

Lemma do_run_runner_order_witness :
  check_input_files (sample "blank" ["core.mapped.v"] "/syn/core.sdc") [".v"] = true
  /\ exists pre script reopen_tcl reopen_sh,
       events (do_run (sample "blank" ["core.mapped.v"] "/syn/core.sdc")
                      (sample_host false) logging_on)
       = pre ++ [EvOpen "/build/par-rundir/par.tcl";
                 EvWrite "/build/par-rundir/par.tcl" script;
                 EvMkdir "/build/par-rundir/generated-scripts";
                 EvOpen "/build/par-rundir/generated-scripts/open_chip.tcl";
                 EvWrite "/build/par-rundir/generated-scripts/open_chip.tcl" reopen_tcl;
                 EvOpen "/build/par-rundir/generated-scripts/open_chip";
                 EvWrite "/build/par-rundir/generated-scripts/open_chip" reopen_sh;
                 EvExec ["chmod"; "+x"; "/build/par-rundir/generated-scripts/open_chip"]
                        None;
                 EvExec ["/opt/cadence/bin/innovus"; "-nowin"; "-common_ui";
                         "-files"; "/build/par-rundir/par.tcl"]
                        (Some "/build/par-rundir")]
       /\ forall args cwd, ~ In (EvExec args cwd) pre.
Proof.
  split; [reflexivity |].
  destruct (do_run_runner_order (sample "blank" ["core.mapped.v"] "/syn/core.sdc")
              (sample_host false) logging_on eq_refl)
    as (pre & script & rt & rs & Hev & _ & Hex).
  exists pre, script, rt, rs. split; [exact Hev |].
  intros args cwd Hin. destruct (Hex args cwd Hin) as [_ Hs]. discriminate Hs.
Defined.

(** ** Where the run writes *)

Lemma echoed_stays_under (self : Innovus) (cmd dir : string) :
  forallb (stays_under dir) (echoed self cmd) = true.
Proof. unfold echoed. destruct (verbose self); reflexivity. Qed.

Lemma floorplan_events_stay_under (self : Innovus) (dir : string) :
  forallb (stays_under dir) (floorplan_events self) = true.
Proof.
  unfold floorplan_events. cbv zeta.
  repeat match goal with |- context [if ?c then _ else _] => destruct c end;
    reflexivity.
Qed.

Lemma mmmc_events_stay_under (self : Innovus) :
  forallb (stays_under (run_dir self)) (mmmc_events self) = true.
Proof.
  unfold mmmc_events. rewrite !forallb_app, !echoed_stays_under.
  destruct (String.eqb (post_synth_sdc self) EmptyString); [| reflexivity].
  cbn [forallb andb].
  change (stays_under (run_dir self) (EvExec ["touch"; blank_sdc_path self] None))
    with (String.prefix (run_dir self) (blank_sdc_path self)).
  unfold blank_sdc_path. rewrite path_join_under by reflexivity. reflexivity.
Qed.

Lemma netlist_check_events_stay_under (self : Innovus) :
  forallb (stays_under (run_dir self)) (netlist_check_events self) = true.
Proof.
  unfold netlist_check_events.
  rewrite !forallb_app, !echoed_stays_under, mmmc_events_stay_under.
  cbn [forallb andb stays_under]. unfold mmmc_path.
  rewrite !path_join_under by reflexivity. reflexivity.
Qed.

Lemma assembly_events_stay_under (self : Innovus) (host : Host) :
  forallb (stays_under (run_dir self))
    (assembly_events self host (floorplan_commands self) (floorplan_events self))
  = true.
Proof.
  unfold assembly_events.
  rewrite !forallb_app, !echoed_stays_under, floorplan_events_stay_under.
  cbn [forallb andb stays_under]. unfold floorplan_path.
  rewrite !path_join_under by reflexivity. reflexivity.
Qed.

Lemma runner_events_stay_under (self : Innovus) (host : Host) :
  forallb (stays_under (run_dir self)) (runner_events self host) = true.
Proof.
  unfold runner_events, tool_args. cbn [forallb].
  change (stays_under (run_dir self)
            (EvExec ["chmod"; "+x";
                     path_join (path_join (run_dir self) "generated-scripts")
                       "open_chip"] None))
    with (String.prefix (run_dir self)
            (path_join (path_join (run_dir self) "generated-scripts") "open_chip")).
  cbn [stays_under]. unfold par_path, open_chip_tcl_path.
  rewrite !path_join_under2 by reflexivity.
  rewrite !path_join_under by reflexivity. reflexivity.
Qed.

(** Whatever the configuration and however the run ends, every file that
    [do_run] opens or writes, the directory it creates, the file it touches
    and the file it makes executable have a path that starts with the run
    directory. *)
Theorem do_run_stays_in_run_dir (self : Innovus) (host : Host) (lg : Logging) :
  forallb (stays_under (run_dir self)) (events (do_run self host lg)) = true.
Proof.
  destruct (check_input_files self [".v"]) eqn:Hchk.
  - rewrite (do_run_passed self host lg Hchk). cbn [events].
    rewrite !forallb_app, netlist_check_events_stay_under,
      assembly_events_stay_under, runner_events_stay_under. reflexivity.
  - rewrite (do_run_no_netlist self host lg Hchk). cbn [events].
    apply netlist_check_events_stay_under.
Qed.

(** ** How a run ends *)

(** [do_run] returns [False] exactly when the check of the input files
    fails: no later step can make it report failure. *)
Theorem do_run_false_iff (self : Innovus) (host : Host) (lg : Logging) :
  outcome (do_run self host lg) = Returned false
  <-> check_input_files self [".v"] = false.
Proof.
  split.
  - intros H. destruct (check_input_files self [".v"]) eqn:Hchk; [| reflexivity].
    rewrite (do_run_passed self host lg Hchk) in H. cbn [outcome] in H.
    destruct (launch_raises self host); discriminate H.
  - intros Hchk. now rewrite (do_run_no_netlist self host lg Hchk).
Qed.

(** When the launch of the tool does not raise, [do_run] returns [True]
    and leaves both logging flags enabled, also when they were disabled
    before the run: the flags are set, not put back. *)
Theorem do_run_success_enables_logging
    (self : Innovus) (host : Host) (lg : Logging) :
  check_input_files self [".v"] = true ->
  spawn_fails host
    [get_setting self "par.innovus.innovus_bin"; "-nowin"; "-common_ui"; "-files";
     path_join (run_dir self) "par.tcl"] = false ->
  outcome (do_run self host lg) = Returned true
  /\ logging (do_run self host lg) = {| enable_colour := true; enable_tag := true |}.
Proof.
  intros Hchk Hs. rewrite (do_run_passed self host lg Hchk).
  assert (Hl : launch_raises self host = false).
  { unfold launch_raises, tool_args, par_path. rewrite Hs. apply andb_false_r. }
  rewrite Hl. split; reflexivity.
Qed.

Lemma do_run_success_enables_logging_witness :
  logging_off = {| enable_colour := false; enable_tag := false |}
  /\ outcome (do_run (sample "blank" ["core.mapped.v"] EmptyString)
                     (sample_host false) logging_off) = Returned true
  /\ logging (do_run (sample "blank" ["core.mapped.v"] EmptyString)
                     (sample_host false) logging_off)
     = {| enable_colour := true; enable_tag := true |}.
Proof.
  split; [reflexivity |].
  exact (do_run_success_enables_logging
           (sample "blank" ["core.mapped.v"] EmptyString)
           (sample_host false) logging_off eq_refl eq_refl).
Defined.

(** ** What the run script mentions *)

Lemma in_events_par (self : Innovus) (host : Host) (lg : Logging) :
  check_input_files self [".v"] = true ->
  In (EvWrite (par_path self) (PyStr.join PyStr.nl (run_commands self host)))
     (events (do_run self host lg)).
Proof.
  intros Hchk. rewrite (do_run_passed self host lg Hchk). cbn [events].
  rewrite !in_app_iff. right. right. apply in_runner_events_par.
Qed.

(** No input is dropped on the way to the run script: the text written to
    [par.tcl] contains every LEF file, every input file joined onto the
    working directory, and the name of the top module. *)
Theorem do_run_script_mentions_inputs
    (self : Innovus) (host : Host) (lg : Logging) :
  check_input_files self [".v"] = true ->
  exists script,
    In (EvWrite (path_join (run_dir self) "par.tcl") script)
       (events (do_run self host lg))
    /\ (forall lef, In lef (lef_files self) -> PyStr.contains lef script = true)
    /\ (forall name, In name (input_files self) ->
        PyStr.contains (path_join (getcwd host) name) script = true)
    /\ PyStr.contains (top_module self) script = true.
Proof.
  intros Hchk. exists (PyStr.join PyStr.nl (run_commands self host)).
  split; [exact (in_events_par self host lg Hchk) | split; [| split]].
  - intros lef Hin.
    apply (contains_join _ _ (nth 0 (run_commands self host) EmptyString));
      [left; reflexivity |].
    cbn [nth run_commands]. apply contains_app_r, contains_app_l.
    now apply (contains_join _ _ lef), contains_refl.
  - intros name Hin.
    apply (contains_join _ _ (nth 2 (run_commands self host) EmptyString));
      [right; right; left; reflexivity |].
    cbn [nth run_commands]. apply contains_app_r, contains_app_l.
    apply (contains_join _ _ (path_join (getcwd host) name));
      [now apply in_map | apply contains_refl].
  - apply (contains_join _ _ (nth 2 (run_commands self host) EmptyString));
      [right; right; left; reflexivity |].
    cbn [nth run_commands]. do 3 apply contains_app_r. apply contains_refl.
Qed.

Lemma do_run_script_mentions_inputs_witness :
  check_input_files
    (sample "blank" ["rtl/core.mapped.v"; "/syn/pads.v"] EmptyString) [".v"] = true
  /\ exists script,
       In (EvWrite "/build/par-rundir/par.tcl" script)
          (events (do_run (sample "blank" ["rtl/core.mapped.v"; "/syn/pads.v"] EmptyString)
                          (sample_host false) logging_on))
       /\ PyStr.contains "/pdk/cells.lef" script = true
       /\ PyStr.contains "/work/rtl/core.mapped.v" script = true
       /\ PyStr.contains "/syn/pads.v" script = true.
Proof.
  split; [reflexivity |].
  destruct (do_run_script_mentions_inputs
              (sample "blank" ["rtl/core.mapped.v"; "/syn/pads.v"] EmptyString)
              (sample_host false) logging_on eq_refl)
    as (script & Hin & Hlef & Hfiles & _).
  exists script. split; [exact Hin | split; [| split]].
  - apply Hlef. right. left. reflexivity.
  - apply (Hfiles "rtl/core.mapped.v"). left. reflexivity.
  - apply (Hfiles "/syn/pads.v"). right. left. reflexivity.
Defined.

(** The netlist is read by absolute paths: when the working directory is
    absolute, every file named by the [read_netlist] command is absolute,
    and an input file that was absolute already is named as it was. *)
Theorem do_run_netlist_paths_absolute
    (self : Innovus) (host : Host) (lg : Logging) :
  check_input_files self [".v"] = true ->
  PyStr.startswith (getcwd host) "/" = true ->
  exists output files,
    In (EvWrite (path_join (run_dir self) "par.tcl") (PyStr.join PyStr.nl output))
       (events (do_run self host lg))
    /\ nth_error output 2
       = Some ("read_netlist { " +:+ PyStr.join " " files
               +:+ " } -top " +:+ top_module self)
    /\ length files = length (input_files self)
    /\ Forall (fun p => PyStr.startswith p "/" = true) files
    /\ (forall name, In name (input_files self) ->
        PyStr.startswith name "/" = true -> In name files).
Proof.
  intros Hchk Hcwd.
  exists (run_commands self host), (map (path_join (getcwd host)) (input_files self)).
  split; [exact (in_events_par self host lg Hchk) |].
  split; [reflexivity | split; [apply length_map | split]].
  - apply List.Forall_forall. intros p Hp.
    apply List.in_map_iff in Hp as (name & <- & _).
    now apply path_join_absolute.
  - intros name Hin Habs. apply List.in_map_iff. exists name. split; [| exact Hin].
    unfold path_join. now rewrite Habs.
Qed.

Lemma do_run_netlist_paths_absolute_witness :
  PyStr.startswith (getcwd (sample_host false)) "/" = true
  /\ exists output files,
       In (EvWrite "/build/par-rundir/par.tcl" (PyStr.join PyStr.nl output))
          (events (do_run (sample "blank" ["rtl/core.mapped.v"; "/syn/pads.v"] EmptyString)
                          (sample_host false) logging_on))
       /\ nth_error output 2
          = Some ("read_netlist { " +:+ PyStr.join " " files +:+ " } -top core")
       /\ length files = 2
       /\ Forall (fun p => PyStr.startswith p "/" = true) files
       /\ In "/syn/pads.v" files.
Proof.
  split; [reflexivity |].
  destruct (do_run_netlist_paths_absolute
              (sample "blank" ["rtl/core.mapped.v"; "/syn/pads.v"] EmptyString)
              (sample_host false) logging_on eq_refl eq_refl)
    as (output & files & Hin & Hcmd & Hlen & Habs & Hkeep).
  exists output, files.
  split; [exact Hin | split; [exact Hcmd | split; [exact Hlen | split; [exact Habs |]]]].
  apply Hkeep; [right; left; reflexivity | reflexivity].
Defined.

(** ** The floorplan file *)

Lemma join_cons (sep x : string) (l : list string) :
  l <> [] -> PyStr.join sep (x :: l) = x +:+ sep +:+ PyStr.join sep l.
Proof. destruct l; [contradiction | reflexivity]. Qed.

Lemma in_events_floorplan (self : Innovus) (host : Host) (lg : Logging) :
  check_input_files self [".v"] = true ->
  In (EvWrite (floorplan_path self) (PyStr.join PyStr.nl (floorplan_commands self)))
     (events (do_run self host lg)).
Proof.
  intros Hchk. rewrite (do_run_passed self host lg Hchk). cbn [events].
  unfold assembly_events. rewrite !in_app_iff.
  right. left. do 5 right. left. left. reflexivity.
Qed.

(** A manual floorplan reaches [floorplan.tcl] character for character:
    the file holds the provenance comment, a line feed, and the configured
    script text as it is, whatever line feeds it has. *)
Theorem do_run_manual_floorplan_verbatim
    (self : Innovus) (host : Host) (lg : Logging) :
  check_input_files self [".v"] = true ->
  get_setting self "par.innovus.floorplan_mode" = "manual" ->
  In (EvWrite (path_join (run_dir self) "floorplan.tcl")
        ("# Floorplan manually specified from HAMMER" +:+ PyStr.nl
         +:+ get_setting self "par.innovus.floorplan_script_contents"))
     (events (do_run self host lg)).
Proof.
  intros Hchk Hmode. pose proof (in_events_floorplan self host lg Hchk) as H.
  unfold floorplan_commands in H. cbv zeta in H. rewrite Hmode in H.
  change (String.eqb "manual" "manual") with true in H. cbv iota in H.
  rewrite join_cons in H by apply split_nonempty.
  change PyStr.nl with (String PyStr.lf EmptyString) in H at 2.
  rewrite join_split in H. exact H.
Qed.

Lemma do_run_manual_floorplan_verbatim_witness :
  In (EvWrite "/build/par-rundir/floorplan.tcl"
        ("# Floorplan manually specified from HAMMER" +:+ PyStr.nl
         +:+ "A" +:+ PyStr.nl +:+ "B"))
     (events (do_run (sample "manual" ["core.mapped.v"] EmptyString)
                     (sample_host false) logging_on)).
Proof.
  exact (do_run_manual_floorplan_verbatim
           (sample "manual" ["core.mapped.v"] EmptyString)
           (sample_host false) logging_on eq_refl eq_refl).
Defined.

(** An invalid floorplan mode does not stop the run: the error is logged,
    [floorplan.tcl] receives the blank floorplan, the run script is written
    all the same and the tool is launched. *)
Theorem do_run_invalid_mode_goes_on
    (self : Innovus) (host : Host) (lg : Logging) :
  check_input_files self [".v"] = true ->
  let mode := get_setting self "par.innovus.floorplan_mode" in
  mode <> "manual" -> mode <> "generate" -> mode <> "blank" ->
  let r := do_run self host lg in
  In (EvLog LError ("Invalid floorplan_mode " +:+ mode +:+ ". Using blank floorplan."))
     (events r)
  /\ In (EvWrite (path_join (run_dir self) "floorplan.tcl")
           "# Blank floorplan specified from HAMMER") (events r)
  /\ (exists script, In (EvWrite (path_join (run_dir self) "par.tcl") script) (events r))
  /\ In (EvExec [get_setting self "par.innovus.innovus_bin"; "-nowin"; "-common_ui";
                 "-files"; path_join (run_dir self) "par.tcl"]
                (Some (run_dir self))) (events r)
  /\ outcome r <> Returned false.
Proof.
  intros Hchk mode Hm Hg Hb r. subst mode r.
  apply String.eqb_neq in Hm, Hg, Hb.
  pose proof (in_events_floorplan self host lg Hchk) as Hfp.
  pose proof (in_events_par self host lg Hchk) as Hpar.
  assert (Hc : floorplan_commands self = ["# Blank floorplan specified from HAMMER"]).
  { unfold floorplan_commands. cbv zeta. now rewrite Hm, Hg. }
  rewrite Hc in Hfp.
  split; [| split; [exact Hfp | split; [eexists; exact Hpar | split]]].
  - rewrite (do_run_passed self host lg Hchk). cbn [events].
    unfold assembly_events, floorplan_events. cbv zeta. rewrite Hm, Hg, Hb.
    rewrite !in_app_iff. right. left. do 4 right. left. left. reflexivity.
  - rewrite (do_run_passed self host lg Hchk). cbn [events].
    rewrite !in_app_iff. right. right.
    unfold runner_events, tool_args, par_path. do 8 right. left. reflexivity.
  - rewrite (do_run_passed self host lg Hchk). cbn [outcome].
    destruct (launch_raises self host); discriminate.
Qed.

Lemma do_run_invalid_mode_goes_on_witness :
  In (EvLog LError "Invalid floorplan_mode bogus. Using blank floorplan.")
     (events (do_run (sample "bogus" ["core.mapped.v"] EmptyString)
                     (sample_host false) logging_on))
  /\ In (EvExec ["/opt/cadence/bin/innovus"; "-nowin"; "-common_ui"; "-files";
                 "/build/par-rundir/par.tcl"] (Some "/build/par-rundir"))
        (events (do_run (sample "bogus" ["core.mapped.v"] EmptyString)
                        (sample_host false) logging_on)).
Proof.
  destruct (do_run_invalid_mode_goes_on
              (sample "bogus" ["core.mapped.v"] EmptyString)
              (sample_host false) logging_on eq_refl)
    as (Hlog & _ & _ & Hrun & _); try discriminate.
  split; [exact Hlog | exact Hrun].
Defined.

(** ** The environment *)

(** [env_vars] exports the configured binary as [INNOVUS_BIN], replacing
    whatever the base classes had under that name, and passes every other
    variable on unchanged; the binary it exports is the one [do_run]
    launches in the run directory. *)
Theorem env_vars_innovus_bin
    (base : gmap string string) (self : Innovus) (host : Host) (lg : Logging) :
  let bin := get_setting self "par.innovus.innovus_bin" in
  env_vars base self !! "INNOVUS_BIN" = Some bin
  /\ (forall name, name <> "INNOVUS_BIN" -> env_vars base self !! name = base !! name)
  /\ dom (env_vars base self) = {["INNOVUS_BIN"]} ∪ dom base
  /\ (check_input_files self [".v"] = true ->
      exists options,
        In (EvExec (bin :: options) (Some (run_dir self)))
           (events (do_run self host lg))).
Proof.
  intros bin. subst bin. unfold env_vars. cbv zeta.
  split; [apply lookup_insert_eq | split; [| split]].
  - intros name N. apply lookup_insert_ne. congruence.
  - apply dom_insert_L.
  - intros Hchk. eexists.
    rewrite (do_run_passed self host lg Hchk). cbn [events].
    rewrite !in_app_iff. right. right.
    unfold runner_events, tool_args. do 8 right. left. reflexivity.
Qed.

Lemma env_vars_innovus_bin_witness :
  env_vars {["INNOVUS_BIN" := "/old/innovus"; "PATH" := "/usr/bin"]}
           (sample "blank" ["core.mapped.v"] EmptyString) !! "INNOVUS_BIN"
  = Some "/opt/cadence/bin/innovus"
  /\ env_vars {["INNOVUS_BIN" := "/old/innovus"; "PATH" := "/usr/bin"]}
              (sample "blank" ["core.mapped.v"] EmptyString) !! "PATH"
     = Some "/usr/bin"
  /\ exists options,
       In (EvExec ("/opt/cadence/bin/innovus" :: options) (Some "/build/par-rundir"))
          (events (do_run (sample "blank" ["core.mapped.v"] EmptyString)
                          (sample_host false) logging_on)).
Proof.
  destruct (env_vars_innovus_bin
              {["INNOVUS_BIN" := "/old/innovus"; "PATH" := "/usr/bin"]}
              (sample "blank" ["core.mapped.v"] EmptyString)
              (sample_host false) logging_on)
    as (Hbin & Hother & _ & Hrun).
  split; [exact Hbin | split; [| exact (Hrun eq_refl)]].
  rewrite Hother by discriminate. reflexivity.
Defined.

(** ** The lines of a manual floorplan *)

Lemma split_fields (sep : ascii) (s : string) :
  Forall (fun w => PyStr.mem sep w = false) (PyStr.split sep s)
  /\ length (PyStr.split sep s) = S (count_char sep s).
Proof.
  induction s as [|c s [IHf IHl]]; [split; [repeat constructor | reflexivity] |].
  cbn [PyStr.split count_char].
  pose proof (split_nonempty sep s) as NE.
  destruct (Ascii.eqb c sep) eqn:E.
  - split; [constructor; [reflexivity | exact IHf] |].
    cbn [length]. now rewrite IHl.
  - destruct (PyStr.split sep s) as [|w ws]; [contradiction |].
    inversion IHf as [|? ? Hw Hws]; subst. split.
    + constructor; [| exact Hws]. cbn [PyStr.mem]. now rewrite E, Hw.
    + exact IHl.
Qed.

(** In mode [manual] every command after the provenance comment is one
    line: none holds a line feed, and there is one more of them than there
    are line feeds in the script text, so an empty text still gives one,
    empty, command. *)
Theorem create_floorplan_tcl_manual_lines (self : Innovus) (lg : Logging) :
  get_setting self "par.innovus.floorplan_mode" = "manual" ->
  let contents := get_setting self "par.innovus.floorplan_script_contents" in
  exists lines,
    outcome (create_floorplan_tcl self lg)
    = Returned ("# Floorplan manually specified from HAMMER" :: lines)
    /\ Forall (fun line => PyStr.mem PyStr.lf line = false) lines
    /\ length lines = S (count_char PyStr.lf contents)
    /\ (contents = EmptyString -> lines = [EmptyString]).
Proof.
  intros Hmode contents. subst contents.
  exists (PyStr.split PyStr.lf (get_setting self "par.innovus.floorplan_script_contents")).
  rewrite create_floorplan_tcl_run. unfold floorplan_commands. cbv zeta.
  rewrite Hmode.
  split; [reflexivity | split; [apply split_fields | split; [apply split_fields |]]].
  intros ->. reflexivity.
Qed.

Lemma create_floorplan_tcl_manual_lines_witness :
  exists lines,
    outcome (create_floorplan_tcl (sample "manual" ["core.mapped.v"] EmptyString)
                                  logging_on)
    = Returned ("# Floorplan manually specified from HAMMER" :: lines)
    /\ length lines = 2.
Proof.
  destruct (create_floorplan_tcl_manual_lines
              (sample "manual" ["core.mapped.v"] EmptyString) logging_on eq_refl)
    as (lines & Hout & _ & Hlen & _).
  exists lines. split; [exact Hout | exact Hlen].
Defined.

(** ** The run script as written *)

Lemma mem_join (c : ascii) (sep : string) (l : list string) :
  PyStr.mem c sep = false ->
  Forall (fun s => PyStr.mem c s = false) l ->
  PyStr.mem c (PyStr.join sep l) = false.
Proof.
  intros Hsep F. unfold PyStr.join. induction F as [|x l Hx F IH]; [reflexivity |].
  destruct l as [|y l]; [exact Hx |].
  change (String.concat sep (x :: y :: l))
    with (x +:+ sep +:+ String.concat sep (y :: l)).
  now rewrite !mem_append, Hx, Hsep, IH.
Qed.

Lemma path_join_mem (c : ascii) (a b : string) :
  PyStr.mem c a = false -> PyStr.mem c b = false ->
  Ascii.eqb "/"%char c = false ->
  PyStr.mem c (path_join a b) = false.
Proof.
  intros Ha Hb Hc.
  destruct (PyStr.startswith b "/") eqn:E.
  - unfold path_join. now rewrite E.
  - now apply path_join_rel_mem.
Qed.

Lemma not_written_if_untouched (p s : string) (l : list Event) :
  forallb (fun e => negb (touches_file p e)) l = true -> ~ In (EvWrite p s) l.
Proof.
  intros H Hin. rewrite forallb_forall in H. specialize (H _ Hin).
  simpl in H. rewrite String.eqb_refl in H. discriminate H.
Qed.

Lemma echoed_untouching (self : Innovus) (cmd p : string) :
  forallb (fun e => negb (touches_file p e)) (echoed self cmd) = true.
Proof. unfold echoed. destruct (verbose self); reflexivity. Qed.

Lemma floorplan_events_untouching (self : Innovus) (p : string) :
  forallb (fun e => negb (touches_file p e)) (floorplan_events self) = true.
Proof.
  unfold floorplan_events. cbv zeta.
  repeat match goal with |- context [if ?c then _ else _] => destruct c end;
    reflexivity.
Qed.

Lemma assembly_events_untouched_par (self : Innovus) (host : Host) :
  forallb (fun e => negb (touches_file (par_path self) e))
    (assembly_events self host (floorplan_commands self) (floorplan_events self))
  = true.
Proof.
  unfold assembly_events.
  rewrite !forallb_app, !echoed_untouching, floorplan_events_untouching.
  cbn [forallb touches_file].
  rewrite (String.eqb_sym (floorplan_path self)), par_not_floorplan. reflexivity.
Qed.

Lemma written_to_par (self : Innovus) (host : Host) (lg : Logging) (script : string) :
  check_input_files self [".v"] = true ->
  In (EvWrite (par_path self) script) (events (do_run self host lg)) ->
  script = PyStr.join PyStr.nl (run_commands self host).
Proof.
  intros Hchk H. rewrite (do_run_passed self host lg Hchk) in H. cbn [events] in H.
  apply in_app_iff in H as [H | H].
  { exfalso. revert H. apply not_written_if_untouched.
    apply netlist_check_events_untouched_par. }
  apply in_app_iff in H as [H | H].
  { exfalso. revert H. apply not_written_if_untouched.
    apply assembly_events_untouched_par. }
  unfold runner_events in H.
  pose proof (open_chip_tcl_not_direct self "par.tcl" ltac:(simpl; tauto)) as N1.
  pose proof (open_chip_not_direct self "par.tcl" ltac:(simpl; tauto)) as N2.
  apply String.eqb_neq in N1, N2. fold (par_path self) in N1, N2.
  fold (open_chip_path self) in H.
  repeat (destruct H as [H | H]; [try discriminate H |]); try contradiction.
  - now injection H as <-.
  - injection H as Hp _. contradiction.
  - injection H as Hp _. contradiction.
Qed.

(** C1.  Once the input files pass the check, [do_run] writes [par.tcl]
    once, and what it writes is the twelve commands below joined by line
    feeds.  Whatever the configuration, these are in this order: read the
    layout, read the timing script, read the netlist, initialise the design,
    set the effort, source the floorplan, place and optimise, route, fix up
    after routing, write the database, stream out, exit.  When no file name
    holds a line feed, the lines of the file are these twelve commands. *)
Theorem do_run_command_order (self : Innovus) (host : Host) (lg : Logging) :
  check_input_files self [".v"] = true ->
  let r := do_run self host lg in
  let par_tcl := path_join (run_dir self) "par.tcl" in
  let output :=
    ["read_physical -lef { " +:+ PyStr.join " " (lef_files self) +:+ " }";
     "read_mmmc " +:+ path_join (run_dir self) "mmmc.tcl";
     "read_netlist { "
       +:+ PyStr.join " " (map (path_join (getcwd host)) (input_files self))
       +:+ " } -top " +:+ top_module self;
     "init_design";
     "set_db design_flow_effort express";
     "source -echo -verbose " +:+ path_join (run_dir self) "floorplan.tcl";
     "place_opt_design";
     "route_design";
     "opt_design -post_route -setup -hold";
     "write_db " +:+ (top_module self +:+ "_ENC") +:+ " -def -verilog";
     "write_stream -output_macros -mode ALL -unit 1000 gds_file";
     "exit"] in
  let no_lf := fun s => PyStr.mem PyStr.lf s = false in
  In (EvWrite par_tcl (PyStr.join PyStr.nl output)) (events r)
  /\ (forall script, In (EvWrite par_tcl script) (events r) ->
      script = PyStr.join PyStr.nl output)
  /\ map run_step output
     = [Some ReadLayout; Some ReadTiming; Some ReadNetlist; Some InitDesign;
        Some SetEffort; Some SourceFloorplan; Some PlaceOptimize; Some Route;
        Some PostRouteFixup; Some WriteDatabase; Some StreamExport; Some Exit]
  /\ (Forall no_lf (lef_files self) -> Forall no_lf (input_files self) ->
      no_lf (getcwd host) -> no_lf (top_module self) -> no_lf (run_dir self) ->
      PyStr.split PyStr.lf (PyStr.join PyStr.nl output) = output).
Proof.
  intros Hchk r par_tcl output no_lf. subst r par_tcl no_lf.
  change output with (run_commands self host). clear output.
  split; [exact (in_events_par self host lg Hchk) | split; [| split]].
  - intros script. apply written_to_par. exact Hchk.
  - reflexivity.
  - intros Hlef Hin Hcwd Htop Hdir. apply run_script_lines; try assumption.
    + apply mem_join; [reflexivity | exact Hlef].
    + apply mem_join; [reflexivity |]. apply List.Forall_forall.
      intros p Hp. apply List.in_map_iff in Hp as (name & <- & Hname).
      apply path_join_mem; [exact Hcwd | | reflexivity].
      rewrite List.Forall_forall in Hin. now apply Hin.
Qed.

Lemma do_run_command_order_witness :
  check_input_files (sample "manual" ["core.mapped.v"] EmptyString) [".v"] = true
  /\ In (EvWrite "/build/par-rundir/par.tcl"
          (PyStr.join PyStr.nl
             ["read_physical -lef { /pdk/tech.lef /pdk/cells.lef }";
              "read_mmmc /build/par-rundir/mmmc.tcl";
              "read_netlist { /work/core.mapped.v } -top core";
              "init_design";
              "set_db design_flow_effort express";
              "source -echo -verbose /build/par-rundir/floorplan.tcl";
              "place_opt_design";
              "route_design";
              "opt_design -post_route -setup -hold";
              "write_db core_ENC -def -verilog";
              "write_stream -output_macros -mode ALL -unit 1000 gds_file";
              "exit"]))
        (events (do_run (sample "manual" ["core.mapped.v"] EmptyString)
                        (sample_host false) logging_on))
  /\ length
       (PyStr.split PyStr.lf
          (PyStr.join PyStr.nl
             ["read_physical -lef { /pdk/tech.lef /pdk/cells.lef }";
              "read_mmmc /build/par-rundir/mmmc.tcl";
              "read_netlist { /work/core.mapped.v } -top core";
              "init_design";
              "set_db design_flow_effort express";
              "source -echo -verbose /build/par-rundir/floorplan.tcl";
              "place_opt_design";
              "route_design";
              "opt_design -post_route -setup -hold";
              "write_db core_ENC -def -verilog";
              "write_stream -output_macros -mode ALL -unit 1000 gds_file";
              "exit"])) = 12.
Proof.
  split; [reflexivity |].
  destruct (do_run_command_order (sample "manual" ["core.mapped.v"] EmptyString)
                                 (sample_host false) logging_on eq_refl)
    as (Hin & _ & _ & Hlines).
  split; [exact Hin |].
  assert (Hlef : Forall (fun s => PyStr.mem PyStr.lf s = false)
                   (lef_files (sample "manual" ["core.mapped.v"] EmptyString)))
    by (repeat constructor).
  assert (Hfiles : Forall (fun s => PyStr.mem PyStr.lf s = false)
                     (input_files (sample "manual" ["core.mapped.v"] EmptyString)))
    by (repeat constructor).
  pose proof (Hlines Hlef Hfiles eq_refl eq_refl eq_refl) as E.
  apply (f_equal (@List.length string)) in E. exact E.
Defined.

(** ** What a failed run leaves behind *)

Lemma blank_sdc_not_mmmc (self : Innovus) :
  String.eqb (blank_sdc_path self) (mmmc_path self) = false.
Proof. apply path_join_rel_neqb; [reflexivity | reflexivity | discriminate]. Qed.










